(** * make-qrcode: the QR bot of [bot.py], embedded and checked against its specification

    The development follows [bot.py] top to bottom: the colour table, the two
    database tables, the keyboards, the handlers [start], [button_handler],
    [color_button_handler] and [handle_message], and [generate_qr].

    The handlers are asynchronous callbacks that read and write three pieces
    of state (the per-user [context.user_data] dictionaries, the database
    behind [Session], and the chat they send to), and that may be left by an
    exception.  They are embedded in a state-and-exception monad [M] over the
    record [World]; every message sent to the chat is appended to [outbox].

    [generate_qr] is a plain function.  It calls three libraries: Pillow
    ([ImageColor.getrgb], [Image.new], [ImageDraw.rectangle], [convert],
    [save]), qrcode ([QRCode], [add_data], [make_image] with [best_fit]
    underneath) and the standard [bisect] module.  What these calls compute
    from the arguments that [bot.py] passes is written out below next to the
    call; the parts that are tables or codecs of those libraries (the colour
    names, the chunking of the text, the Reed-Solomon block table, the
    placement of the modules, the PNG writer) are variables of the section. *)

From Stdlib Require Import ZArith String Ascii List Lia DecimalString.
From stdpp Require Import base tactics option list gmap strings sorting.

Open Scope string_scope.
Open Scope Z_scope.

(** ** Strings as Python has them *)

(** Python strings are sequences of code points; here they are their UTF-8
    bytes.  The only character the bot looks for is ['|'] (0x7C), which never
    occurs inside a multi-byte sequence, so splitting bytes and splitting code
    points agree. *)

Definition pipe : ascii := "|"%char.

(** [sep in s] *)
Fixpoint contains (sep : ascii) (s : string) : bool :=
  match s with
  | EmptyString => false
  | String c s' => if Ascii.eqb c sep then true else contains sep s'
  end.

(** [s.split(sep)] for a one-character separator: never empty, one more
    element than there are separators. *)
Fixpoint split (sep : ascii) (s : string) : list string :=
  match s with
  | EmptyString => [EmptyString]
  | String c s' =>
      if Ascii.eqb c sep then EmptyString :: split sep s'
      else match split sep s' with
           | [] => [String c EmptyString]
           | p :: ps => String c p :: ps
           end
  end.

(** [sep.join(parts)] *)
Fixpoint join (sep : ascii) (parts : list string) : string :=
  match parts with
  | [] => EmptyString
  | [p] => p
  | p :: ps => p +:+ String sep (join sep ps)
  end.

(** [s.startswith(p)] *)
Definition startswith (p s : string) : bool := String.prefix p s.

(** [str(n)] for an integer. *)
Definition str (n : Z) : string := NilZero.string_of_int (Z.to_int n).

Definition dquote : string := String (ascii_of_nat 34) EmptyString.
Definition nl : string := String (ascii_of_nat 10) EmptyString.

(** ** Colour table *)

Definition COLORS : list (string * (string * string)) :=
  [ ("Чёрный на белом", ("black", "white"));
    ("Красный на белом", ("red", "white"));
    ("Синий на белом", ("blue", "white"));
    ("Зелёный на белом", ("green", "white"));
    ("Белый на чёрном", ("white", "black")) ].

(** ** Database tables *)

(** [created_at] is a [datetime]; it is kept as the number of microseconds
    since the epoch, which orders as [datetime] does. *)
Record User := mkUser {
  user_user_id : string;
  user_name : string;
  user_created_at : Z
}.

Record QRHistory := mkQRHistory {
  user_id : string;
  data : string;
  fill_color : string;
  bg_color : string;
  created_at : Z
}.

Record Database := mkDatabase {
  users : list User;
  history : list QRHistory
}.

(** ** Keyboards and what the bot sends *)

Record InlineKeyboardButton := mkButton {
  button_text : string;
  callback_data : string
}.

Definition InlineKeyboardMarkup := list (list InlineKeyboardButton).

Definition main_keyboard : InlineKeyboardMarkup :=
  [ [mkButton "🆕 Создать QR-код" "create_qr"];
    [mkButton "📜 История" "show_history"];
    [mkButton "ℹ️ Помощь" "help"];
    [mkButton "❤️ Поддержать создателя" "donate"] ].

Definition back_to_menu_keyboard : InlineKeyboardMarkup :=
  [ [mkButton "🏡 Главное меню" "main_menu"] ].

Definition get_color_keyboard : InlineKeyboardMarkup :=
  (map (fun '(text, (fc, bc)) => [mkButton text ("color|" +:+ fc +:+ "|" +:+ bc)]) COLORS
   ++ [ [mkButton "⬅️ Назад" "back_to_menu"] ])%list.

Definition bytes := list Byte.byte.

(** One call of the transport.  [edit_message] stands for
    [edit_message_text] with its fall-back to [edit_message_caption] when the
    message is a photo: which of the two succeeds is the transport's affair. *)
Inductive Action :=
| answer
| reply_text (text : string) (reply_markup : InlineKeyboardMarkup)
| reply_photo (photo : bytes) (caption : string) (reply_markup : InlineKeyboardMarkup)
| edit_message (text : string) (reply_markup : InlineKeyboardMarkup).

(** ** The world a handler runs in *)

Record TgUser := mkTgUser {
  id : Z;
  first_name : string
}.

(** An update carries either a text message or a pressed button. *)
Inductive Update :=
| MessageUpdate (effective_user : TgUser) (text : string)
| CallbackUpdate (effective_user : TgUser) (query_data : string).

Definition effective_user (u : Update) : TgUser :=
  match u with MessageUpdate usr _ | CallbackUpdate usr _ => usr end.

(** [all_user_data] is the application's [user_data]: one dictionary per
    user id, empty until something is stored; [context.user_data] is the
    entry of the update's user.  [db_up] tells whether the database answers:
    while it does not, a query or a commit raises.  [utcnow] is the clock
    read by the column default of [created_at]; [logo] is the content of
    [logo.png] when the file exists. *)
Record World := mkWorld {
  all_user_data : gmap Z (gmap string string);
  db : Database;
  db_up : bool;
  utcnow : Z;
  logo : option bytes;
  outbox : list Action
}.

Inductive exn :=
| ValueError
| AttributeError
| DataOverflowError
| RecursionError
| OperationalError.

Inductive result (A : Type) :=
| Ok (a : A)
| Raise (e : exn).
Arguments Ok {A} a.
Arguments Raise {A} e.

Definition M (A : Type) : Type := World -> result A * World.

#[global] Instance M_ret : MRet M := fun A a w => (Ok a, w).
#[global] Instance M_bind : MBind M := fun A B f m w =>
  match m w with
  | (Ok a, w') => f a w'
  | (Raise e, w') => (Raise e, w')
  end.

Definition raise {A} (e : exn) : M A := fun w => (Raise e, w).
Definition get_world : M World := fun w => (Ok w, w).
Definition lift {A} (r : result A) : M A := fun w => (r, w).

Definition set_outbox (o : list Action) (w : World) : World :=
  mkWorld (all_user_data w) (db w) (db_up w) (utcnow w) (logo w) o.
Definition set_db (d : Database) (w : World) : World :=
  mkWorld (all_user_data w) d (db_up w) (utcnow w) (logo w) (outbox w).
Definition set_all_user_data (ud : gmap Z (gmap string string)) (w : World) : World :=
  mkWorld ud (db w) (db_up w) (utcnow w) (logo w) (outbox w).

Definition send (a : Action) : M unit :=
  fun w => (Ok tt, set_outbox (outbox w ++ [a])%list w).

(** [context.user_data] of user [uid]. *)
Definition user_data (uid : Z) (w : World) : gmap string string :=
  default ∅ (all_user_data w !! uid).

(** [context.user_data.get(key, dflt)] *)
Definition user_data_get (uid : Z) (key dflt : string) : M string :=
  fun w => (Ok (default dflt (user_data uid w !! key)), w).

(** [context.user_data[key] = value] *)
Definition user_data_set (uid : Z) (key value : string) : M unit :=
  fun w => (Ok tt, set_all_user_data (<[uid := <[key := value]> (user_data uid w)]> (all_user_data w)) w).

(** [session.query(User).filter_by(user_id=uid).first()] *)
Definition query_user_first (uid : string) : M (option User) :=
  fun w => if db_up w
           then (Ok (head (filter (fun u => user_user_id u = uid) (users (db w)))), w)
           else (Raise OperationalError, w).

(** [session.add(User(user_id=uid, name=name)); session.commit()] *)
Definition add_user_commit (uid name : string) : M unit :=
  fun w => if db_up w
           then (Ok tt, set_db (mkDatabase (users (db w) ++ [mkUser uid name (utcnow w)])%list
                                           (history (db w))) w)
           else (Raise OperationalError, w).

(** [session.add(QRHistory(...)); session.commit()] *)
Definition add_history_commit (uid d fc bc : string) : M unit :=
  fun w => if db_up w
           then (Ok tt, set_db (mkDatabase (users (db w))
                                           (history (db w) ++ [mkQRHistory uid d fc bc (utcnow w)])%list) w)
           else (Raise OperationalError, w).

(** The order of [order_by(QRHistory.created_at.desc())]. *)
Definition newer_first (a b : QRHistory) : Prop := created_at b <= created_at a.

#[global] Instance newer_first_dec : RelDecision newer_first.
Proof. intros a b. unfold newer_first. apply _. Defined.

(** [session.query(QRHistory).filter_by(user_id=uid)
      .order_by(QRHistory.created_at.desc()).limit(5).all()].
    Rows with equal [created_at] come in the order the sort leaves them in;
    the database promises none. *)
Definition query_history (uid : string) : M (list QRHistory) :=
  fun w => if db_up w
           then (Ok (take 5 (merge_sort newer_first
                               (filter (fun h => user_id h = uid) (history (db w))))), w)
           else (Raise OperationalError, w).

(** ** [bisect.bisect_left] *)

(** The loop of [bisect_left(a, x, lo, hi)]; [fuel] bounds the number of
    iterations, and [hi - lo] iterations are always enough. *)
Fixpoint bisect_loop (fuel : nat) (a : list nat) (x lo hi : nat) : nat :=
  match fuel with
  | O => lo
  | S fuel' =>
      if (lo <? hi)%nat then
        let mid := ((lo + hi) / 2)%nat in
        if (nth mid a 0 <? x)%nat
        then bisect_loop fuel' a x (mid + 1)%nat hi
        else bisect_loop fuel' a x lo mid
      else lo
  end.

(** [bisect_left(a, x, lo)], with [hi = len(a)]. *)
Definition bisect_left (a : list nat) (x lo : nat) : nat :=
  bisect_loop (length a) a x lo (length a).

(** ** The qrcode library, as [generate_qr] drives it *)

Inductive ErrorCorrection :=
| ERROR_CORRECT_L
| ERROR_CORRECT_M
| ERROR_CORRECT_Q
| ERROR_CORRECT_H.

(** The modes a [QRData] chunk can have. *)
Inductive Mode :=
| MODE_NUMBER
| MODE_ALPHA_NUM
| MODE_8BIT_BYTE.

Record QRData := mkQRData {
  qr_mode : Mode;
  qr_payload : string
}.

Record QRCode := mkQRCode {
  version : nat;
  error_correction : ErrorCorrection;
  box_size : nat;
  border : nat;
  data_list : list QRData
}.

(** The three dictionaries [MODE_SIZE_SMALL], [MODE_SIZE_MEDIUM] and
    [MODE_SIZE_LARGE]: the width of the length field of a chunk. *)
Inductive ModeSizes :=
| MODE_SIZE_SMALL
| MODE_SIZE_MEDIUM
| MODE_SIZE_LARGE.

Definition mode_sizes_for_version (v : nat) : ModeSizes :=
  if (v <? 10)%nat then MODE_SIZE_SMALL
  else if (v <? 27)%nat then MODE_SIZE_MEDIUM
  else MODE_SIZE_LARGE.

Definition mode_size (ms : ModeSizes) (m : Mode) : nat :=
  match ms, m with
  | MODE_SIZE_SMALL, MODE_NUMBER => 10
  | MODE_SIZE_SMALL, MODE_ALPHA_NUM => 9
  | MODE_SIZE_SMALL, MODE_8BIT_BYTE => 8
  | MODE_SIZE_MEDIUM, MODE_NUMBER => 12
  | MODE_SIZE_MEDIUM, MODE_ALPHA_NUM => 11
  | MODE_SIZE_MEDIUM, MODE_8BIT_BYTE => 16
  | MODE_SIZE_LARGE, MODE_NUMBER => 14
  | MODE_SIZE_LARGE, MODE_ALPHA_NUM => 13
  | MODE_SIZE_LARGE, MODE_8BIT_BYTE => 16
  end%nat.

(** [mode_sizes is util.mode_sizes_for_version(...)]: identity of the three
    dictionaries. *)
Definition mode_sizes_is (a b : ModeSizes) : bool :=
  match a, b with
  | MODE_SIZE_SMALL, MODE_SIZE_SMALL
  | MODE_SIZE_MEDIUM, MODE_SIZE_MEDIUM
  | MODE_SIZE_LARGE, MODE_SIZE_LARGE => true
  | _, _ => false
  end.

(** The number of bits [QRData.write] puts into the buffer: three digits in
    ten bits (two in seven, one in four), two alphanumeric characters in
    eleven (one in six), a byte in eight. *)
Definition write_bits (d : QRData) : nat :=
  let n := String.length (qr_payload d) in
  match qr_mode d with
  | MODE_NUMBER =>
      (10 * (n / 3) + match n mod 3 with O => 0 | 1 => 4 | _ => 7 end)%nat
  | MODE_ALPHA_NUM => (11 * (n / 2) + 6 * (n mod 2))%nat
  | MODE_8BIT_BYTE => (8 * n)%nat
  end.

(** [len(buffer)] after the loop of [best_fit]: for each chunk four bits of
    mode, the length field and the data. *)
Definition needed_bits (ms : ModeSizes) (dl : list QRData) : nat :=
  foldr (fun d acc => (4 + mode_size ms (qr_mode d) + write_bits d + acc)%nat) 0%nat dl.

(** [util.BIT_LIMIT_TABLE[ec]]: a leading zero, then for each version from 1
    to 40 eight times the data codewords of its Reed-Solomon blocks. *)
Definition BIT_LIMIT_TABLE (rs_data_count : ErrorCorrection -> nat -> nat)
    (ec : ErrorCorrection) : list nat :=
  0%nat :: map (fun v => (8 * rs_data_count ec v)%nat) (seq 1 40).

(** [util.check_version] *)
Definition check_version (v : nat) : bool := (1 <=? v)%nat && (v <=? 40)%nat.

(** [QRCode.best_fit(start)].  The index found by [bisect_left] is assigned
    to [self.version], and the setter of [version] runs [check_version] on
    it: when no entry of the table is large enough the index is 41 and the
    setter raises [ValueError], before the comparison with 41 that follows
    the assignment.  The method calls itself when the version found uses a
    wider length field than the one assumed; [fuel] bounds the depth. *)
Fixpoint best_fit_rec (fuel : nat) (limits : list nat) (dl : list QRData)
    (start : nat) : result nat :=
  match fuel with
  | O => Raise RecursionError
  | S fuel' =>
      if check_version start then
        let mode_sizes := mode_sizes_for_version start in
        let v := bisect_left limits (needed_bits mode_sizes dl) start in
        if check_version v then
          if (v =? 41)%nat then Raise DataOverflowError
          else if mode_sizes_is mode_sizes (mode_sizes_for_version v) then Ok v
          else best_fit_rec fuel' limits dl v
        else Raise ValueError
      else Raise ValueError
  end.

(** Every nested call starts from a larger version, and there are forty. *)
Definition best_fit (limits : list nat) (dl : list QRData) (start : nat) : result nat :=
  best_fit_rec 40 limits dl start.

(** The check of [util.create_data]: the chunks, written with the length
    fields of version [v], are within the bit limit of version [v]. *)
Definition fits (limits : list nat) (dl : list QRData) (v : nat) : Prop :=
  (needed_bits (mode_sizes_for_version v) dl <= nth v limits 0)%nat.

(** What [bisect_left] expects of its list. *)
Fixpoint nondecreasing (a : list nat) : bool :=
  match a with
  | x :: t => match t with
              | y :: _ => (x <=? y)%nat && nondecreasing t
              | [] => true
              end
  | [] => true
  end.

(** The three dictionaries in the order of their field widths. *)
Definition mode_sizes_rank (ms : ModeSizes) : nat :=
  match ms with
  | MODE_SIZE_SMALL => 0
  | MODE_SIZE_MEDIUM => 1
  | MODE_SIZE_LARGE => 2
  end%nat.

(** [modules_count] of a version. *)
Definition modules_count (v : nat) : nat := (v * 4 + 17)%nat.

(** ** Pillow images, as [make_image] and [convert] use them *)

(** What [ImageColor.getrgb] returns: three channels, or four when the
    specifier carries an alpha value. *)
Inductive Color :=
| RGB (r g b : Z)
| RGBA (r g b a : Z).

Definition RGBPixel : Type := Z * Z * Z.
Definition RGBAPixel : Type := Z * Z * Z * Z.

(** A raster is the list of its rows, top to bottom. *)
Abbreviation Raster P := (list (list P)).

Definition CLIP8 (v : Z) : Z := if v <=? 0 then 0 else if v <? 256 then v else 255.

(** The ink of a colour tuple in an image of mode RGB: the channels are
    clipped to a byte and a fourth element is not stored. *)
Definition getink (c : Color) : RGBPixel :=
  match c with
  | RGB r g b | RGBA r g b _ => (CLIP8 r, CLIP8 g, CLIP8 b)
  end.

(** [Image.new("RGB", (w, h), color)] *)
Definition Image_new (w h : nat) (color : Color) : Raster RGBPixel :=
  replicate h (replicate w (getink color)).

(** [ImageDraw.rectangle(((x0, y0), (x1, y1)), fill)]: both corners belong to
    the rectangle, and what lies outside the image is not drawn. *)
Definition rectangle (img : Raster RGBPixel) (x0 y0 x1 y1 : nat) (fill : Color)
    : Raster RGBPixel :=
  imap (fun y row =>
          if (y0 <=? y)%nat && (y <=? y1)%nat
          then imap (fun x p => if (x0 <=? x)%nat && (x <=? x1)%nat then getink fill else p) row
          else row) img.

(** [PilImage.pixel_box] followed by the [rectangle] of [PilImage.drawrect]. *)
Definition drawrect (box_size border : nat) (fill : Color) (img : Raster RGBPixel)
    (row col : nat) : Raster RGBPixel :=
  let x := ((col + border) * box_size)%nat in
  let y := ((row + border) * box_size)%nat in
  rectangle img x y (x + box_size - 1)%nat (y + box_size - 1)%nat fill.


(** [self.modules[r][c]]; the library's matrix is always square of side
    [modules_count], so the default is never used. *)
Definition module_at (modules : list (list bool)) (r c : nat) : bool :=
  default false (modules !! r ≫= (.!! c)).

(** The image factory and the two loops of [make_image]: a square of
    [pixel_size] filled with the back colour, then one rectangle for each
    dark module. *)
Definition draw_modules (box_size border width : nat) (modules : list (list bool))
    (fill back : Color) : Raster RGBPixel :=
  let pixel_size := ((width + border * 2) * box_size)%nat in
  foldl (fun img r =>
           foldl (fun img c =>
                    if module_at modules r c
                    then drawrect box_size border fill img r c
                    else img)
                 img (seq 0 width))
        (Image_new pixel_size pixel_size back) (seq 0 width).

(** [img.convert("RGBA")] of an RGB image: the alpha channel is 255. *)
Definition convert_RGBA (img : Raster RGBPixel) : Raster RGBAPixel :=
  fmap (M := list) (fmap (M := list) (fun p : RGBPixel => let '(r, g, b) := p in (r, g, b, 255))) img.


(** ** One instance of the libraries' tables, to run the bot on *)

Definition lower_ascii (c : ascii) : ascii :=
  let n := nat_of_ascii c in
  if (65 <=? n)%nat && (n <=? 90)%nat then ascii_of_nat (n + 32) else c.

Fixpoint lower (s : string) : string :=
  match s with
  | EmptyString => EmptyString
  | String c s' => String (lower_ascii c) (lower s')
  end.

Definition hex_digit (c : ascii) : option Z :=
  let n := Z.of_nat (nat_of_ascii c) in
  if (48 <=? n) && (n <=? 57) then Some (n - 48)
  else if (97 <=? n) && (n <=? 102) then Some (n - 87)
  else None.

Definition hex_pair (a b : ascii) : option Z :=
  hi ← hex_digit a; lo ← hex_digit b; Some (16 * hi + lo).

(** The part of [ImageColor.getrgb] that the colour table and the usual
    [#rrggbb] form need: the five names of [COLORS] with the values of
    Pillow's colour map, and six hexadecimal digits.  Any other specifier is
    rejected here. *)
Definition sample_getrgb (color : string) : option Color :=
  let color := lower color in
  if String.eqb color "black" then Some (RGB 0 0 0)
  else if String.eqb color "white" then Some (RGB 255 255 255)
  else if String.eqb color "red" then Some (RGB 255 0 0)
  else if String.eqb color "blue" then Some (RGB 0 0 255)
  else if String.eqb color "green" then Some (RGB 0 128 0)
  else match color with
       | String "#" (String r1 (String r2 (String g1 (String g2
           (String b1 (String b2 EmptyString)))))) =>
           r ← hex_pair r1 r2; g ← hex_pair g1 g2; b ← hex_pair b1 b2;
           Some (RGB r g b)
       | _ => None
       end.

(** The whole text as one chunk of bytes. *)
Definition sample_optimal_data_chunks (s : string) : list QRData :=
  [mkQRData MODE_8BIT_BYTE s].

(** Data codewords per version at level H (index 0 is unused). *)
Definition data_codewords_H : list nat :=
  [ 0; 9; 16; 26; 36; 46; 60; 66; 86; 100; 122; 140; 158; 180; 197; 223; 253;
    283; 313; 341; 385; 406; 442; 464; 514; 538; 596; 628; 661; 701; 745; 793;
    845; 901; 961; 986; 1054; 1096; 1142; 1222; 1276 ]%nat.

Definition sample_rs_data_count (ec : ErrorCorrection) (v : nat) : nat :=
  match ec with
  | ERROR_CORRECT_H => nth v data_codewords_H 0%nat
  | _ => 0%nat
  end.

(** A chequered square of the right side, in place of the real placement of
    finder patterns, data and mask. *)
Definition sample_make_modules (v : nat) (ec : ErrorCorrection) (dl : list QRData)
    : list (list bool) :=
  let n := modules_count v in
  map (fun r => map (fun c => Nat.even (r + c)) (seq 0 n)) (seq 0 n).

Definition byte_of_Z (z : Z) : Byte.byte := default Byte.x00 (Byte.of_N (Z.to_N z)).

(** The PNG signature followed by the four channels of every pixel, row by
    row, in place of Pillow's writer. *)
Definition sample_png_encode (img : Raster RGBAPixel) : bytes :=
  ([Byte.x89; Byte.x50; Byte.x4e; Byte.x47; Byte.x0d; Byte.x0a; Byte.x1a; Byte.x0a]
   ++ concat (map (fun row =>
        concat (map (fun '(r, g, b, a) =>
                       [byte_of_Z r; byte_of_Z g; byte_of_Z b; byte_of_Z a]) row)) img))%list.

Definition sample_strftime (t : Z) : string := str t.

Section Bot.

(** [ImageColor.getrgb]; [None] is its [ValueError]. *)
Variable getrgb : string -> option Color.
(** [util.optimal_data_chunks(data, minimum=20)] *)
Variable optimal_data_chunks : string -> list QRData.
(** The sum of [block.data_count] over [base.rs_blocks(version, ec)]. *)
Variable rs_data_count : ErrorCorrection -> nat -> nat.
(** [self.modules] after [makeImpl] with the best mask pattern. *)
Variable make_modules : nat -> ErrorCorrection -> list QRData -> list (list bool).
(** [img.save(byte_io, 'PNG')] of an RGBA image. *)
Variable png_encode : Raster RGBAPixel -> bytes.
(** [created_at.strftime('%d.%m %H:%M')] *)
Variable strftime : Z -> string.

(** [qr.add_data(data)] *)
Definition add_data (qr : QRCode) (d : string) : QRCode :=
  mkQRCode (version qr) (error_correction qr) (box_size qr) (border qr)
           (data_list qr ++ optimal_data_chunks d)%list.

(** [qr.make_image(fill_color=fill, back_color=back)].  No data cache
    exists yet, so [make] runs with [fit=True]: [best_fit] starts from
    [self.version] and the modules are laid out for the version it finds.
    Both colours are tuples, so the image has mode RGB. *)
Definition make_image (qr : QRCode) (fill back : Color) : result (Raster RGBPixel) :=
  match best_fit (BIT_LIMIT_TABLE rs_data_count (error_correction qr))
                 (data_list qr) (version qr) with
  | Raise e => Raise e
  | Ok v =>
      let modules := make_modules v (error_correction qr) (data_list qr) in
      Ok (draw_modules (box_size qr) (border qr) (modules_count v) modules fill back)
  end.

(** [generate_qr(data, fill_color, bg_color)]; the result is the content of
    the [BytesIO], [None] when a colour is rejected. *)
Definition generate_qr (data fill_color bg_color : string) : result (option bytes) :=
  match getrgb fill_color with
  | None => Ok None
  | Some fill =>
      match getrgb bg_color with
      | None => Ok None
      | Some background =>
          let qr := mkQRCode 1 ERROR_CORRECT_H 10 4 [] in
          let qr := add_data qr data in
          match make_image qr fill background with
          | Raise e => Raise e
          | Ok img => Ok (Some (png_encode (convert_RGBA img)))
          end
      end
  end.

(** [send_with_main_menu(context, update, message)] *)
Definition send_with_main_menu (update : Update) (message : string) : M unit :=
  match update with
  | MessageUpdate _ _ => send (reply_text message back_to_menu_keyboard)
  | CallbackUpdate _ _ => send (edit_message message back_to_menu_keyboard)
  end.

Definition welcome_text (name : string) : string :=
  "
👋 Привет, " +:+ name +:+ "!

Я — бот для создания QR-кодов. Вот что я умею:

Выберите действие ниже 👇
".

Definition menu_text : string :=
  "
👋 Привет!

Я — бот для создания QR-кодов. Вот что я умею:

Выберите действие ниже 👇
".

(** [start(update, context)]; an update without a message has no
    [reply_photo] to call. *)
Definition start (update : Update) : M unit :=
  let user := effective_user update in
  db_user ← query_user_first (str (id user));
  match db_user with
  | None => add_user_commit (str (id user)) (first_name user)
  | Some _ => mret tt
  end;;
  match update with
  | MessageUpdate _ _ =>
      w ← get_world;
      match logo w with
      | Some photo_file =>
          send (reply_photo photo_file (welcome_text (first_name user)) main_keyboard)
      | None =>
          send (reply_text (welcome_text (first_name user)) main_keyboard)
      end
  | CallbackUpdate _ _ => raise AttributeError
  end.

Definition help_text : string :=
  "
📝 Как использовать:

1. Нажмите " +:+ dquote +:+ "🆕 Создать QR-код" +:+ dquote +:+ ".
2. Выберите цвета или оставьте стандартные.
3. Отправьте текст или ссылку.
4. Получите готовый QR-код 🎉

Вы также можете отправить PNG-изображение, чтобы добавить логотип внутрь QR-кода.
".

Definition donate_text : string :=
  "
❤️ Спасибо за поддержку!

Если тебе нравится этот бот, ты можешь поддержать меня:

- 💝 Сказать спасибо: @che1nov
- 💳 Перевести денежку: `2204 3101 7320 1438`

Любая помощь важна!
".

(** The text of the history branch of [button_handler]. *)
Definition history_msg (history : list QRHistory) : string :=
  match history with
  | [] => "🚫 У вас пока нет истории."
  | _ =>
      foldl (fun msg item =>
               msg +:+ "🔗 `" +:+ data item +:+ "`" +:+ nl
                   +:+ "🎨 " +:+ fill_color item +:+ " | " +:+ bg_color item +:+ nl
                   +:+ "🕒 " +:+ strftime (created_at item) +:+ nl +:+ nl)
            ("📜 Ваша история последних 5 QR-кодов:" +:+ nl +:+ nl) history
  end.

(** [button_handler(update, context)] *)
Definition button_handler (update : Update) : M unit :=
  match update with
  | MessageUpdate _ _ => raise AttributeError
  | CallbackUpdate from_user query_data =>
      send answer;;
      if String.eqb query_data "create_qr" then
        send (edit_message "Выберите цвета:" get_color_keyboard)
      else if String.eqb query_data "show_history" then
        history ← query_history (str (id from_user));
        send_with_main_menu update (history_msg history)
      else if String.eqb query_data "help" then
        send_with_main_menu update help_text
      else if String.eqb query_data "donate" then
        send_with_main_menu update donate_text
      else if String.eqb query_data "main_menu" then
        send (edit_message menu_text main_keyboard)
      else mret tt
  end.

(** [color_button_handler(update, context)]; unpacking raises unless the
    data has exactly three parts. *)
Definition color_button_handler (update : Update) : M unit :=
  match update with
  | MessageUpdate _ _ => raise AttributeError
  | CallbackUpdate from_user query_data =>
      send answer;;
      if startswith "color" query_data then
        match split pipe query_data with
        | [_; fill_color; bg_color] =>
            user_data_set (id from_user) "fill_color" fill_color;;
            user_data_set (id from_user) "bg_color" bg_color;;
            send_with_main_menu update "✅ Цвет выбран. Отправьте текст для QR-кода."
        | _ => raise ValueError
        end
      else if String.eqb query_data "back_to_menu" then
        send (edit_message menu_text main_keyboard)
      else mret tt
  end.

(** Lines 274 to 279 of [handle_message]: the text to encode and the two
    colour names, from the message text and the stored colours. *)
Definition parse_payload (text fill_color bg_color : string) : string * string * string :=
  if contains pipe text then
    let parts := split pipe text in
    (nth 0 parts "",
     if (1 <? length parts)%nat then nth 1 parts "" else fill_color,
     if (2 <? length parts)%nat then nth 2 parts "" else bg_color)
  else (text, fill_color, bg_color).

(** Lines 281 to 302 of [handle_message]: what is done with the text and
    the two colour names once they are known. *)
Definition encode_and_reply (update : Update) (user : TgUser)
    (data fill_color bg_color : string) : M unit :=
  qr_image ← lift (generate_qr data fill_color bg_color);
  match qr_image with
  | Some image =>
      add_history_commit (str (id user)) data fill_color bg_color;;
      send (reply_photo image "Вот ваш QR-код!" back_to_menu_keyboard);;
      start update
  | None => mret tt
  end.

(** [handle_message(update, context)] *)
Definition handle_message (update : Update) : M unit :=
  match update with
  | CallbackUpdate _ _ => raise AttributeError
  | MessageUpdate user text =>
      fill_color ← user_data_get (id user) "fill_color" "black";
      bg_color ← user_data_get (id user) "bg_color" "white";
      let '(data, fill_color, bg_color) := parse_payload text fill_color bg_color in
      encode_and_reply update user data fill_color bg_color
  end.

End Bot.

(** ** The bot on the sample tables *)

Definition sample_encode_and_reply : Update -> TgUser -> string -> string -> string -> M unit :=
  encode_and_reply sample_getrgb sample_optimal_data_chunks sample_rs_data_count
                   sample_make_modules sample_png_encode.

Definition sample_generate_qr : string -> string -> string -> result (option bytes) :=
  generate_qr sample_getrgb sample_optimal_data_chunks sample_rs_data_count
              sample_make_modules sample_png_encode.

Definition sample_handle_message : Update -> M unit :=
  handle_message sample_getrgb sample_optimal_data_chunks sample_rs_data_count
                 sample_make_modules sample_png_encode.

Definition sample_user : TgUser := mkTgUser 42 "Ann".

(** A fresh process: nobody has picked colours, both tables are empty, the
    database answers and there is no [logo.png]. *)
Definition sample_world : World :=
  mkWorld ∅ (mkDatabase [] []) true 1000 None [].

(** The same with the database unreachable. *)
Definition sample_world_down : World :=
  mkWorld ∅ (mkDatabase [] []) false 1000 None [].

(** A later moment of another process: a user and a row are stored, the
    clock has advanced and a message has been sent already. *)
Definition sample_world_later : World :=
  mkWorld ∅ (mkDatabase [mkUser "42" "Ann" 1000]
                        [mkQRHistory "42" "hello" "black" "white" 1000])
          true 2000 None [reply_text "hello" main_keyboard].

Definition sample_other_user : TgUser := mkTgUser 7 "Bob".

(** The picture of a text of version 1 in the given colours. *)
Definition sample_image (text : string) (fill back : Color) : bytes :=
  sample_png_encode
    (convert_RGBA
       (draw_modules 10 4 (modules_count 1)
          (sample_make_modules 1 ERROR_CORRECT_H (sample_optimal_data_chunks text))
          fill back)).

(** ** The registration of the handlers *)

(** The four handlers of the entry point. *)
Inductive Registered :=
| on_start
| on_button
| on_color_button
| on_message.

(** [re.match(r'^(create_qr|show_history|help|donate|main_menu)$', data)]:
    one of the five tokens, possibly followed by one final newline, which
    [$] lets pass. *)
Definition button_pattern (data : string) : bool :=
  existsb (fun token => String.eqb data token || String.eqb data (token +:+ nl))
          ["create_qr"; "show_history"; "help"; "donate"; "main_menu"].

(** [re.match(r'^(color|back_to_menu)', data)]: a prefix. *)
Definition color_pattern (data : string) : bool :=
  startswith "color" data || startswith "back_to_menu" data.

(** The handler that gets a callback query: the first of the two
    [CallbackQueryHandler]s, in the order they were added, whose pattern
    matches the data; none when neither matches. *)
Definition callback_query_handler (data : string) : option Registered :=
  if button_pattern data then Some on_button
  else if color_pattern data then Some on_color_button
  else None.

Section Application.

Variable getrgb : string -> option Color.
Variable optimal_data_chunks : string -> list QRData.
Variable rs_data_count : ErrorCorrection -> nat -> nat.
Variable make_modules : nat -> ErrorCorrection -> list QRData -> list (list bool).
Variable png_encode : Raster RGBAPixel -> bytes.
Variable strftime : Z -> string.

(** The callback of a registered handler. *)
Definition callback (h : Registered) : Update -> M unit :=
  match h with
  | on_start => start
  | on_button => button_handler strftime
  | on_color_button => color_button_handler
  | on_message =>
      handle_message getrgb optimal_data_chunks rs_data_count make_modules png_encode
  end.

(** [app.run_polling()] seen from the handlers: for each update in turn the
    application calls the handler it has chosen; an exception that leaves
    the handler is logged and the next update is processed in the world the
    handler left. *)
Fixpoint process_updates (calls : list (Registered * Update)) (w : World) : World :=
  match calls with
  | [] => w
  | (h, update) :: rest => process_updates rest (callback h update w).2
  end.

End Application.

Definition sample_callback : Registered -> Update -> M unit :=
  callback sample_getrgb sample_optimal_data_chunks sample_rs_data_count
           sample_make_modules sample_png_encode sample_strftime.

Definition sample_process_updates : list (Registered * Update) -> World -> World :=
  process_updates sample_getrgb sample_optimal_data_chunks sample_rs_data_count
                  sample_make_modules sample_png_encode sample_strftime.

(** A text of 1300 bytes, more than any version holds at level H. *)
Definition sample_long_text : string :=
  string_of_list_ascii (replicate 1300 "a"%char).

(** A world in which user 42 has six rows and user 7 has one. *)
Definition sample_world_busy : World :=
  mkWorld ∅
    (mkDatabase [mkUser "42" "Ann" 100; mkUser "7" "Bob" 150]
       [mkQRHistory "42" "a" "black" "white" 100;
        mkQRHistory "42" "b" "red" "white" 300;
        mkQRHistory "7" "z" "blue" "white" 350;
        mkQRHistory "42" "c" "black" "white" 200;
        mkQRHistory "42" "d" "black" "white" 600;
        mkQRHistory "42" "e" "black" "white" 500;
        mkQRHistory "42" "f" "black" "white" 400])
    true 1000 None [].

(** * Properties *)

(** ** Splitting and joining *)

Lemma split_nonempty sep s : split sep s <> [].
Proof.
  destruct s as [|c s]; simpl; [done|].
  destruct (Ascii.eqb c sep); [done|].
  destruct (split sep s); done.
Qed.

Lemma split_no_sep sep s : contains sep s = false -> split sep s = [s].
Proof.
  induction s as [|c s IH]; simpl; [done|].
  destruct (Ascii.eqb c sep); [done|].
  intros H. rewrite (IH H). done.
Qed.

Lemma split_app_sep sep p s :
  contains sep p = false ->
  split sep (p +:+ String sep s) = p :: split sep s.
Proof.
  induction p as [|c p IH]; simpl.
  - intros _. rewrite Ascii.eqb_refl. done.
  - destruct (Ascii.eqb c sep); [done|].
    intros H. rewrite (IH H). done.
Qed.

Lemma contains_app_sep sep p s : contains sep (p +:+ String sep s) = true.
Proof.
  induction p as [|c p IH]; simpl.
  - rewrite Ascii.eqb_refl. done.
  - destruct (Ascii.eqb c sep); done.
Qed.

Lemma split_join sep parts :
  parts <> [] ->
  Forall (fun p => contains sep p = false) parts ->
  split sep (join sep parts) = parts.
Proof.
  induction parts as [|p ps IH]; [done|].
  intros _ Hall. inversion Hall as [|? ? Hp Hps]; subst.
  destruct ps as [|q qs].
  - simpl. by apply split_no_sep.
  - change (join sep (p :: q :: qs)) with (p +:+ String sep (join sep (q :: qs))).
    rewrite split_app_sep by done. f_equal. by apply IH.
Qed.

Lemma join_cons sep p ps :
  ps <> [] -> join sep (p :: ps) = p +:+ String sep (join sep ps).
Proof. destruct ps; done. Qed.

Lemma join_cons_String sep c q qs :
  join sep (String c q :: qs) = String c (join sep (q :: qs)).
Proof. destruct qs; done. Qed.

Lemma join_split sep s : join sep (split sep s) = s.
Proof.
  induction s as [|c s IH]; simpl; [done|].
  pose proof (split_nonempty sep s) as Hne.
  destruct (Ascii.eqb c sep) eqn:Hc.
  - apply Ascii.eqb_eq in Hc. subst c.
    rewrite join_cons by done. simpl. by rewrite IH.
  - destruct (split sep s) as [|q qs]; [done|].
    rewrite join_cons_String. by rewrite IH.
Qed.

(** A text that contains the separator is its first part, the separator,
    and the other parts joined again. *)
Lemma split_head sep s :
  contains sep s = true ->
  exists p ps,
    split sep s = p :: ps /\ ps <> [] /\ contains sep p = false /\
    s = p +:+ String sep (join sep ps).
Proof.
  induction s as [|c s IH]; simpl; [done|].
  destruct (Ascii.eqb c sep) eqn:Hc.
  - intros _. apply Ascii.eqb_eq in Hc. subst c.
    exists EmptyString, (split sep s).
    split_and!; [done|apply split_nonempty|done|].
    simpl. by rewrite join_split.
  - intros H. destruct (IH H) as (p & ps & Hs & Hne & Hp & Heq).
    rewrite Hs. exists (String c p), ps. split_and!; [done|done| |].
    + simpl. by rewrite Hc.
    + change (String c s = String c (p +:+ String sep (join sep ps))).
      by rewrite <- Heq.
Qed.

(** ** The handlers *)

Section BotProperties.

Variable getrgb : string -> option Color.
Variable optimal_data_chunks : string -> list QRData.
Variable rs_data_count : ErrorCorrection -> nat -> nat.
Variable make_modules : nat -> ErrorCorrection -> list QRData -> list (list bool).
Variable png_encode : Raster RGBAPixel -> bytes.
Variable strftime : Z -> string.

Local Abbreviation generate_qr' :=
  (generate_qr getrgb optimal_data_chunks rs_data_count make_modules png_encode).
Local Abbreviation handle_message' :=
  (handle_message getrgb optimal_data_chunks rs_data_count make_modules png_encode).

Local Abbreviation encode_and_reply' :=
  (encode_and_reply getrgb optimal_data_chunks rs_data_count make_modules png_encode).

(** [handle_message] on a text message: the stored colours are read, the
    payload is parsed, and the rest works on the result. *)
Lemma handle_message_parse user text w :
  handle_message' (MessageUpdate user text) w =
  let '(d, fc, bc) :=
    parse_payload text
      (default "black" (user_data (id user) w !! "fill_color"))
      (default "white" (user_data (id user) w !! "bg_color")) in
  encode_and_reply' (MessageUpdate user text) user d fc bc w.
Proof.
  unfold handle_message, mbind, M_bind, user_data_get.
  by destruct (parse_payload _ _ _) as [[d fc] bc].
Qed.

(** [encode_and_reply], step by step. *)
Lemma encode_and_reply_run update user d fc bc w :
  encode_and_reply' update user d fc bc w =
  match generate_qr' d fc bc with
  | Raise e => (Raise e, w)
  | Ok None => (Ok tt, w)
  | Ok (Some image) =>
      if db_up w then
        start update
          (set_outbox
             (outbox w ++ [reply_photo image "Вот ваш QR-код!" back_to_menu_keyboard])%list
             (set_db (mkDatabase (users (db w))
                        (history (db w) ++ [mkQRHistory (str (id user)) d fc bc (utcnow w)])%list)
                     w))
      else (Raise OperationalError, w)
  end.
Proof.
  unfold encode_and_reply, mbind, M_bind, lift.
  destruct (generate_qr' d fc bc) as [[image|]|e]; try reflexivity.
  unfold add_history_commit, send. destruct (db_up w); reflexivity.
Qed.

Lemma handle_message_run user text w :
  handle_message' (MessageUpdate user text) w =
  let '(d, fc, bc) :=
    parse_payload text
      (default "black" (user_data (id user) w !! "fill_color"))
      (default "white" (user_data (id user) w !! "bg_color")) in
  match generate_qr' d fc bc with
  | Raise e => (Raise e, w)
  | Ok None => (Ok tt, w)
  | Ok (Some image) =>
      if db_up w then
        start (MessageUpdate user text)
          (set_outbox
             (outbox w ++ [reply_photo image "Вот ваш QR-код!" back_to_menu_keyboard])%list
             (set_db (mkDatabase (users (db w))
                        (history (db w) ++ [mkQRHistory (str (id user)) d fc bc (utcnow w)])%list)
                     w))
      else (Raise OperationalError, w)
  end.
Proof.
  rewrite handle_message_parse.
  destruct (parse_payload _ _ _) as [[d fc] bc].
  apply encode_and_reply_run.
Qed.

(** [start] touches neither the stored colours nor the history table. *)
Lemma start_frame update w :
  all_user_data (start update w).2 = all_user_data w /\
  history (db (start update w).2) = history (db w).
Proof.
  unfold start, mbind, M_bind, query_user_first, add_user_commit, get_world, send, raise, mret, M_ret.
  destruct (db_up w) eqn:Hup; simpl; [|done].
  destruct (head _); simpl; rewrite ?Hup; simpl;
    destruct update; simpl; try done; destruct (logo w); done.
Qed.

(** [handle_message] never writes to [user_data]. *)
Lemma handle_message_user_data update w :
  all_user_data (handle_message' update w).2 = all_user_data w.
Proof.
  destruct update as [user text|user qd]; [|done].
  rewrite handle_message_run.
  destruct (parse_payload _ _ _) as [[d fc] bc].
  destruct (generate_qr' d fc bc) as [[image|]|e]; try done.
  destruct (db_up w); [|done].
  by rewrite (proj1 (start_frame _ _)).
Qed.

(** A payload with a pipe has at least two parts. *)
Lemma split_pipe_length text :
  contains pipe text = true -> (1 <? length (split pipe text))%nat = true.
Proof.
  intros H. destruct (split_head _ _ H) as (p & ps & Hs & Hne & _).
  rewrite Hs. destruct ps; [done|]. done.
Qed.

(** C1 (amended): when the text contains a pipe and the colour taken
    from its second part, or from its third part when there is one, is
    rejected by [getrgb], [handle_message] ends normally without sending
    anything and without changing the world: no reply, no picture, no history
    row, and no other colour is tried in its place. *)
Theorem handle_message_rejected_override_is_silent user text w :
  contains pipe text = true ->
  getrgb (nth 1 (split pipe text) "") = None \/
  ((2 < length (split pipe text))%nat /\ getrgb (nth 2 (split pipe text) "") = None) ->
  handle_message' (MessageUpdate user text) w = (Ok tt, w).
Proof.
  intros Hpipe Hbad. rewrite handle_message_run.
  unfold parse_payload. rewrite Hpipe, (split_pipe_length _ Hpipe).
  unfold generate_qr.
  destruct Hbad as [Hfill|[Hlen Hbg]].
  - by rewrite Hfill.
  - apply Nat.ltb_lt in Hlen. rewrite Hlen, Hbg.
    by destruct (getrgb (nth 1 _ _)).
Qed.

(** C2: when [generate_qr] does not produce an image for the payload (it
    returns [None] or raises), [handle_message] leaves the whole world, and in
    particular the history table, as it was: the row is added only after an
    image has been produced. *)
Theorem handle_message_failed_encode_keeps_history user text w d fc bc :
  parse_payload text
    (default "black" (user_data (id user) w !! "fill_color"))
    (default "white" (user_data (id user) w !! "bg_color")) = (d, fc, bc) ->
  (forall image, generate_qr' d fc bc <> Ok (Some image)) ->
  (handle_message' (MessageUpdate user text) w).2 = w /\
  history (db (handle_message' (MessageUpdate user text) w).2) = history (db w).
Proof.
  intros Hparse Hfail. rewrite handle_message_run, Hparse.
  destruct (generate_qr' d fc bc) as [[image|]|e] eqn:Hgen; try done.
  by destruct (Hfail image).
Qed.

(** C3 (amended): when the image has been produced and the database does
    not answer, the commit of the history row raises and [handle_message] is
    left by that exception before [reply_photo]: nothing is sent, neither the
    image nor a message about the store, and nothing is stored. *)
Theorem handle_message_store_failure_aborts user text w d fc bc image :
  parse_payload text
    (default "black" (user_data (id user) w !! "fill_color"))
    (default "white" (user_data (id user) w !! "bg_color")) = (d, fc, bc) ->
  generate_qr' d fc bc = Ok (Some image) ->
  db_up w = false ->
  handle_message' (MessageUpdate user text) w = (Raise OperationalError, w).
Proof.
  intros Hparse Hgen Hdown. by rewrite handle_message_run, Hparse, Hgen, Hdown.
Qed.

(** [start] does not look at the text of the message. *)
Lemma start_text_irrelevant user t1 t2 w :
  start (MessageUpdate user t1) w = start (MessageUpdate user t2) w.
Proof. reflexivity. Qed.

Lemma encode_and_reply_text_irrelevant user t1 t2 usr d fc bc w :
  encode_and_reply' (MessageUpdate user t1) usr d fc bc w
  = encode_and_reply' (MessageUpdate user t2) usr d fc bc w.
Proof. reflexivity. Qed.


(** C9: a text of the form [t|f|b] is encoded as [t] with the colour
    names [f] and [b], whatever colours are stored, and handling a message,
    this one or any other, leaves the [user_data] of every user as it was. *)
Theorem handle_message_override_is_per_request user t f b w :
  contains pipe t = false ->
  contains pipe f = false ->
  contains pipe b = false ->
  handle_message' (MessageUpdate user (join pipe [t; f; b])) w
  = encode_and_reply' (MessageUpdate user (join pipe [t; f; b])) user t f b w /\
  (forall update, all_user_data (handle_message' update w).2 = all_user_data w).
Proof.
  intros Ht Hf Hb. split; [|intros; apply handle_message_user_data].
  rewrite handle_message_parse. unfold parse_payload.
  change (join pipe [t; f; b]) with (t +:+ String pipe (join pipe [f; b])).
  rewrite contains_app_sep, split_app_sep by done.
  change (join pipe [f; b]) with (f +:+ String pipe b).
  rewrite split_app_sep by done.
  by rewrite (split_no_sep _ _ Hb).
Qed.

(** C10: when the text has more than three parts, the first is the
    text to encode, the second and third are the colour names, and the rest
    changes nothing: the message is handled exactly as the message made of the
    first three parts.  And whenever the text contains a pipe, what is encoded
    is the part before the first pipe and no more. *)
Theorem handle_message_extra_parts_discarded user p0 p1 p2 rest w :
  Forall (fun p => contains pipe p = false) (p0 :: p1 :: p2 :: rest) ->
  handle_message' (MessageUpdate user (join pipe (p0 :: p1 :: p2 :: rest))) w
  = encode_and_reply' (MessageUpdate user (join pipe (p0 :: p1 :: p2 :: rest))) user p0 p1 p2 w /\
  handle_message' (MessageUpdate user (join pipe (p0 :: p1 :: p2 :: rest))) w
  = handle_message' (MessageUpdate user (join pipe [p0; p1; p2])) w /\
  (forall text, contains pipe text = true ->
     exists d fc bc tail,
       text = d +:+ String pipe tail /\ contains pipe d = false /\
       handle_message' (MessageUpdate user text) w
       = encode_and_reply' (MessageUpdate user text) user d fc bc w).
Proof.
  intros Hall.
  assert (Hparse : forall ps sf sb,
             Forall (fun p => contains pipe p = false) (p0 :: p1 :: p2 :: ps) ->
             parse_payload (join pipe (p0 :: p1 :: p2 :: ps)) sf sb = (p0, p1, p2)).
  { intros ps sf sb Hps. unfold parse_payload.
    rewrite split_join by done.
    change (join pipe (p0 :: p1 :: p2 :: ps))
      with (p0 +:+ String pipe (join pipe (p1 :: p2 :: ps))).
    by rewrite contains_app_sep. }
  assert (Hall3 : Forall (fun p => contains pipe p = false) [p0; p1; p2]).
  { inversion Hall as [|? ? H0 Hall1]; subst. inversion Hall1 as [|? ? H1 Hall2]; subst.
    inversion Hall2 as [|? ? H2 _]; subst. by repeat constructor. }
  split_and!.
  - by rewrite handle_message_parse, Hparse.
  - rewrite !handle_message_parse, (Hparse rest), (Hparse []) by done.
    apply encode_and_reply_text_irrelevant.
  - intros text Hpipe.
    destruct (split_head _ _ Hpipe) as (d & ps & Hs & Hne & Hd & Heq).
    destruct (parse_payload text
      (default "black" (user_data (id user) w !! "fill_color"))
      (default "white" (user_data (id user) w !! "bg_color"))) as [[d' fc] bc] eqn:Hp.
    exists d, fc, bc, (join pipe ps). split_and!; [done|done|].
    rewrite handle_message_parse, Hp.
    unfold parse_payload in Hp. rewrite Hpipe, Hs in Hp. simpl in Hp.
    by inversion Hp.
Qed.

End BotProperties.

(** C1, counterexample: ["purplish"] is rejected, and the message
    ["hello|purplish|white"] is handled without any reply. *)
Lemma rejected_override_gets_no_reply :
  sample_getrgb "purplish" = None /\
  sample_handle_message (MessageUpdate sample_user "hello|purplish|white") sample_world
  = (Ok tt, sample_world) /\
  outbox (sample_handle_message (MessageUpdate sample_user "hello|purplish|white")
            sample_world).2 = [].
Proof. vm_compute. done. Qed.

Lemma handle_message_rejected_override_is_silent_witness :
  contains pipe "hello|purplish|white" = true /\
  sample_getrgb (nth 1 (split pipe "hello|purplish|white") "") = None /\
  sample_handle_message (MessageUpdate sample_user "hello|purplish|white") sample_world
  = (Ok tt, sample_world).
Proof.
  split; [reflexivity|]. split; [reflexivity|].
  apply (handle_message_rejected_override_is_silent sample_getrgb sample_optimal_data_chunks
           sample_rs_data_count sample_make_modules sample_png_encode
           sample_user "hello|purplish|white" sample_world).
  - reflexivity.
  - left. reflexivity.
Defined.

Lemma handle_message_failed_encode_keeps_history_witness :
  (sample_handle_message (MessageUpdate sample_user "hello|purplish|white") sample_world).2
  = sample_world /\
  history (db (sample_handle_message (MessageUpdate sample_user "hello|purplish|white")
                 sample_world).2) = history (db sample_world).
Proof.
  apply (handle_message_failed_encode_keeps_history sample_getrgb sample_optimal_data_chunks
           sample_rs_data_count sample_make_modules sample_png_encode
           sample_user "hello|purplish|white" sample_world "hello" "purplish" "white").
  - reflexivity.
  - intros image. vm_compute. discriminate.
Defined.

(** C3, counterexample: the image of ["hello"] is produced, the database
    is down, and the handler is left by the exception with nothing sent. *)
Lemma store_failure_delivers_nothing :
  sample_generate_qr "hello" "black" "white"
  = Ok (Some (sample_image "hello" (RGB 0 0 0) (RGB 255 255 255))) /\
  sample_handle_message (MessageUpdate sample_user "hello") sample_world_down
  = (Raise OperationalError, sample_world_down) /\
  outbox (sample_handle_message (MessageUpdate sample_user "hello") sample_world_down).2 = [].
Proof. split_and!; reflexivity. Qed.

Lemma handle_message_store_failure_aborts_witness :
  sample_generate_qr "hello" "black" "white"
  = Ok (Some (sample_image "hello" (RGB 0 0 0) (RGB 255 255 255))) /\
  sample_handle_message (MessageUpdate sample_user "hello") sample_world_down
  = (Raise OperationalError, sample_world_down).
Proof.
  split; [reflexivity|].
  apply (handle_message_store_failure_aborts sample_getrgb sample_optimal_data_chunks
           sample_rs_data_count sample_make_modules sample_png_encode
           sample_user "hello" sample_world_down "hello" "black" "white"
           (sample_image "hello" (RGB 0 0 0) (RGB 255 255 255))).
  - reflexivity.
  - reflexivity.
  - reflexivity.
Defined.

(** ** The history *)

Section HistoryProperties.

Variable strftime : Z -> string.

#[local] Instance newer_first_total : Total newer_first.
Proof. intros a b. unfold newer_first. lia. Qed.

#[local] Instance newer_first_transitive : Transitive newer_first.
Proof. intros a b c. unfold newer_first. lia. Qed.

(** The rows kept by [limit(5)] and the rows cut off. *)
Lemma query_history_rows uid w :
  db_up w = true ->
  exists rows cut,
    query_history uid w = (Ok rows, w) /\
    (length rows <= 5)%nat /\
    StronglySorted newer_first (rows ++ cut) /\
    (rows ++ cut)%list ≡ₚ filter (fun h => user_id h = uid) (history (db w)).
Proof.
  intros Hup. unfold query_history. rewrite Hup.
  set (sorted := merge_sort newer_first _).
  exists (take 5 sorted), (drop 5 sorted). split_and!.
  - done.
  - rewrite length_take. lia.
  - rewrite take_drop. apply StronglySorted_merge_sort; apply _.
  - rewrite take_drop. apply merge_sort_Permutation.
Qed.

(** C5: while the database answers, the history query of a user
    returns at most five rows, all of them rows of that user from the history
    table, ordered from the newest to the oldest, and no row of the user that
    is left out is newer than a row that is returned.  The history button
    shows exactly these rows; for a user without rows the query returns the
    empty list, without an exception, and the button shows the text for an
    empty history. *)
Theorem show_history_newest_five user w :
  db_up w = true ->
  exists rows,
    query_history (str (id user)) w = (Ok rows, w) /\
    (length rows <= 5)%nat /\
    StronglySorted newer_first rows /\
    (forall h, h ∈ rows -> user_id h = str (id user) /\ h ∈ history (db w)) /\
    (forall h h', h ∈ history (db w) -> user_id h = str (id user) -> h ∉ rows ->
                  h' ∈ rows -> created_at h <= created_at h') /\
    button_handler strftime (CallbackUpdate user "show_history") w
    = (Ok tt, set_outbox (outbox w ++ [answer;
                 edit_message (history_msg strftime rows) back_to_menu_keyboard])%list w) /\
    ((forall h, h ∈ history (db w) -> user_id h <> str (id user)) ->
     rows = [] /\ history_msg strftime rows = "🚫 У вас пока нет истории.").
Proof.
  intros Hup.
  destruct (query_history_rows (str (id user)) w Hup)
    as (rows & cut & Hq & Hlen & Hsorted & Hperm).
  exists rows. split_and!; try done.
  - by apply StronglySorted_app_1_l in Hsorted.
  - intros h Hh.
    assert (Hin : h ∈ (rows ++ cut)%list) by (apply elem_of_app; by left).
    rewrite Hperm in Hin. by apply list_elem_of_filter in Hin.
  - intros h h' Hh Huid Hout Hh'.
    assert (Hin : h ∈ (rows ++ cut)%list).
    { rewrite Hperm. by apply list_elem_of_filter. }
    apply elem_of_app in Hin as [Hin|Hin]; [done|].
    apply (StronglySorted_app_1_elem_of _ _ _ _ _ Hsorted Hh' Hin).
  - unfold button_handler, mbind, M_bind, send. simpl.
    replace (query_history (str (id user)) (set_outbox (outbox w ++ [answer])%list w))
      with (Ok rows, set_outbox (outbox w ++ [answer])%list w).
    + simpl. unfold send, set_outbox. simpl. by rewrite <- app_assoc.
    + unfold query_history in *. simpl. rewrite Hup in *. by inversion Hq.
  - intros Hnone.
    assert (Hnil : (rows ++ cut)%list = []).
    { apply Permutation_nil_r. rewrite Hperm.
      apply Permutation_nil_r, elem_of_nil_inv. intros h Hh.
      apply list_elem_of_filter in Hh as [Huid Hin]. by apply (Hnone h). }
    apply app_eq_nil in Hnil as [-> _]. done.
Qed.

End HistoryProperties.

(** ** Choosing the version *)

Lemma nondecreasing_nth a i j :
  nondecreasing a = true -> (i <= j < length a)%nat -> (nth i a 0 <= nth j a 0)%nat.
Proof.
  revert i j. induction a as [|x t IH]; intros i j Hs Hij; simpl in Hij; [lia|].
  simpl in Hs. destruct t as [|y t'].
  - destruct i, j; simpl in *; lia.
  - apply andb_prop in Hs as [Hxy Ht]. apply Nat.leb_le in Hxy.
    destruct i as [|i], j as [|j]; try lia.
    + change (nth (S j) (x :: y :: t') 0%nat) with (nth j (y :: t') 0%nat).
      pose proof (IH 0%nat j Ht) as H0. simpl in H0. simpl. simpl in Hij.
      assert (y <= nth j (y :: t') 0)%nat by (apply H0; simpl; lia).
      simpl in *. lia.
    + change (nth (S i) (x :: y :: t') 0%nat) with (nth i (y :: t') 0%nat).
      change (nth (S j) (x :: y :: t') 0%nat) with (nth j (y :: t') 0%nat).
      apply IH; [done|]. simpl in *. lia.
Qed.

(** The loop narrows [lo, hi) down to the first index whose entry is not
    below [x]. *)
Lemma bisect_loop_spec fuel a x lo hi :
  nondecreasing a = true ->
  (lo <= hi <= length a)%nat ->
  (hi - lo <= fuel)%nat ->
  (lo <= bisect_loop fuel a x lo hi <= hi)%nat /\
  (forall i, (lo <= i < bisect_loop fuel a x lo hi)%nat -> (nth i a 0 < x)%nat) /\
  (forall i, (bisect_loop fuel a x lo hi <= i < hi)%nat -> (x <= nth i a 0)%nat).
Proof.
  intros Hs. revert lo hi. induction fuel as [|fuel IH]; intros lo hi Hb Hf; cbn [bisect_loop].
  - split_and!; intros; lia.
  - destruct (lo <? hi)%nat eqn:Hlt; [|apply Nat.ltb_ge in Hlt; split_and!; intros; lia].
    apply Nat.ltb_lt in Hlt.
    set (mid := ((lo + hi) / 2)%nat).
    assert (Hmid : (lo <= mid < hi)%nat).
    { subst mid. pose proof (Nat.div_mod_eq (lo + hi) 2).
      pose proof (Nat.mod_upper_bound (lo + hi) 2). lia. }
    destruct (nth mid a 0 <? x)%nat eqn:Hcmp.
    + apply Nat.ltb_lt in Hcmp.
      destruct (IH (mid + 1)%nat hi) as (Hr & Hbelow & Habove); [lia|lia|].
      split; [lia|]. split; [|done].
      intros i Hi. destruct (decide (i <= mid)%nat) as [Hle|Hgt].
      * pose proof (nondecreasing_nth a i mid Hs). lia.
      * apply Hbelow. lia.
    + apply Nat.ltb_ge in Hcmp.
      destruct (IH lo mid) as (Hr & Hbelow & Habove); [lia|lia|].
      split; [lia|]. split; [done|].
      intros i Hi. destruct (decide (i < mid)%nat) as [Hlt'|Hge].
      * apply Habove. lia.
      * pose proof (nondecreasing_nth a mid i Hs). lia.
Qed.

Lemma bisect_left_spec a x lo :
  nondecreasing a = true ->
  (lo <= length a)%nat ->
  (lo <= bisect_left a x lo <= length a)%nat /\
  (forall i, (lo <= i < bisect_left a x lo)%nat -> (nth i a 0 < x)%nat) /\
  (forall i, (bisect_left a x lo <= i < length a)%nat -> (x <= nth i a 0)%nat).
Proof. intros Hs Hlo. apply bisect_loop_spec; [done|lia|lia]. Qed.

Lemma mode_sizes_rank_mono v v' :
  (v <= v')%nat ->
  (mode_sizes_rank (mode_sizes_for_version v)
   <= mode_sizes_rank (mode_sizes_for_version v'))%nat.
Proof.
  intros Hle. unfold mode_sizes_for_version.
  destruct (v <? 10)%nat eqn:H1, (v' <? 10)%nat eqn:H2,
           (v <? 27)%nat eqn:H3, (v' <? 27)%nat eqn:H4; simpl; try lia;
    repeat match goal with
           | H : (_ <? _)%nat = true |- _ => apply Nat.ltb_lt in H
           | H : (_ <? _)%nat = false |- _ => apply Nat.ltb_ge in H
           end; lia.
Qed.

Lemma needed_bits_mono ms ms' dl :
  (mode_sizes_rank ms <= mode_sizes_rank ms')%nat ->
  (needed_bits ms dl <= needed_bits ms' dl)%nat.
Proof.
  intros Hr. induction dl as [|d dl IH]; simpl; [lia|].
  assert (mode_size ms (qr_mode d) <= mode_size ms' (qr_mode d))%nat.
  { destruct ms, ms', (qr_mode d); simpl in *; lia. }
  lia.
Qed.

Lemma mode_sizes_is_true ms ms' : mode_sizes_is ms ms' = true -> ms = ms'.
Proof. by destruct ms, ms'. Qed.

Lemma mode_sizes_is_false ms ms' :
  mode_sizes_is ms ms' = false -> mode_sizes_rank ms <> mode_sizes_rank ms'.
Proof. by destruct ms, ms'. Qed.



Section EncoderProperties.

Variable getrgb : string -> option Color.
Variable optimal_data_chunks : string -> list QRData.
Variable rs_data_count : ErrorCorrection -> nat -> nat.
Variable make_modules : nat -> ErrorCorrection -> list QRData -> list (list bool).
Variable png_encode : Raster RGBAPixel -> bytes.

Local Abbreviation generate_qr' :=
  (generate_qr getrgb optimal_data_chunks rs_data_count make_modules png_encode).
Local Abbreviation limits_H := (BIT_LIMIT_TABLE rs_data_count ERROR_CORRECT_H).

(** [generate_qr], step by step: the two colours, the version found from
    version 1 in the table of level H, the modules of that version at level
    H, the drawing with boxes of 10 pixels and a border of 4 modules, the
    alpha channel, the PNG writer. *)
Lemma generate_qr_run d fill_color bg_color :
  generate_qr' d fill_color bg_color =
  match getrgb fill_color, getrgb bg_color with
  | Some fill, Some back =>
      match best_fit limits_H (optimal_data_chunks d) 1 with
      | Raise e => Raise e
      | Ok v =>
          Ok (Some (png_encode (convert_RGBA
                (draw_modules 10 4 (modules_count v)
                   (make_modules v ERROR_CORRECT_H (optimal_data_chunks d)) fill back))))
      end
  | _, _ => Ok None
  end.
Proof.
  unfold generate_qr, make_image, add_data. simpl.
  destruct (getrgb fill_color), (getrgb bg_color); try reflexivity.
  by destruct (best_fit _ _ _).
Qed.


End EncoderProperties.


(** ** Drawing *)













Section RendererProperties.

Variable getrgb : string -> option Color.
Variable optimal_data_chunks : string -> list QRData.
Variable rs_data_count : ErrorCorrection -> nat -> nat.
Variable make_modules : nat -> ErrorCorrection -> list QRData -> list (list bool).
Variable png_encode : Raster RGBAPixel -> bytes.

Local Abbreviation generate_qr' :=
  (generate_qr getrgb optimal_data_chunks rs_data_count make_modules png_encode).
Local Abbreviation limits_H := (BIT_LIMIT_TABLE rs_data_count ERROR_CORRECT_H).


End RendererProperties.

(** ** The theorems at work on the sample tables *)

Lemma show_history_newest_five_witness :
  db_up sample_world_later = true /\
  exists rows,
    query_history (str (id sample_user)) sample_world_later = (Ok rows, sample_world_later) /\
    (length rows <= 5)%nat /\
    StronglySorted newer_first rows.
Proof.
  split; [reflexivity|].
  destruct (show_history_newest_five sample_strftime sample_user sample_world_later eq_refl)
    as (rows & Hq & Hlen & Hsorted & _).
  exists rows. split; [exact Hq|]. split; [exact Hlen|exact Hsorted].
Defined.




Lemma handle_message_override_is_per_request_witness :
  contains pipe "hello" = false /\
  contains pipe "red" = false /\
  contains pipe "white" = false /\
  sample_handle_message (MessageUpdate sample_user "hello|red|white") sample_world
  = sample_encode_and_reply (MessageUpdate sample_user "hello|red|white") sample_user
      "hello" "red" "white" sample_world.
Proof.
  split; [reflexivity|]. split; [reflexivity|]. split; [reflexivity|].
  apply (handle_message_override_is_per_request sample_getrgb sample_optimal_data_chunks
           sample_rs_data_count sample_make_modules sample_png_encode
           sample_user "hello" "red" "white" sample_world); reflexivity.
Defined.

Lemma handle_message_extra_parts_discarded_witness :
  Forall (fun p => contains pipe p = false) ["hello"; "red"; "white"; "x"; "y"] /\
  sample_handle_message (MessageUpdate sample_user "hello|red|white|x|y") sample_world
  = sample_handle_message (MessageUpdate sample_user "hello|red|white") sample_world.
Proof.
  assert (Hall : Forall (fun p => contains pipe p = false) ["hello"; "red"; "white"; "x"; "y"])
    by (repeat constructor).
  split; [exact Hall|].
  apply (handle_message_extra_parts_discarded sample_getrgb sample_optimal_data_chunks
           sample_rs_data_count sample_make_modules sample_png_encode
           sample_user "hello" "red" "white" ["x"; "y"] sample_world Hall).
Defined.

(** * Further properties of the handlers *)

(** ** Picking colours *)

(** The world after a colour button with the data [color|f|b]. *)
Lemma color_button_handler_pick user f b w :
  contains pipe f = false ->
  contains pipe b = false ->
  exists w',
    color_button_handler (CallbackUpdate user ("color|" +:+ f +:+ "|" +:+ b)) w = (Ok tt, w') /\
    user_data (id user) w' !! "fill_color" = Some f /\
    user_data (id user) w' !! "bg_color" = Some b /\
    (forall other, other <> id user -> all_user_data w' !! other = all_user_data w !! other) /\
    db w' = db w /\
    outbox w' = (outbox w ++ [answer;
                   edit_message "✅ Цвет выбран. Отправьте текст для QR-кода."
                                back_to_menu_keyboard])%list.
Proof.
  intros Hf Hb.
  assert (Hsplit : split pipe ("color|" +:+ f +:+ "|" +:+ b) = ["color"; f; b]).
  { change ("color|" +:+ f +:+ "|" +:+ b) with ("color" +:+ String pipe (f +:+ String pipe b)).
    rewrite split_app_sep by reflexivity. rewrite split_app_sep by done.
    by rewrite (split_no_sep _ _ Hb). }
  assert (Hstart : startswith "color" ("color|" +:+ f +:+ "|" +:+ b) = true) by reflexivity.
  revert Hsplit Hstart. generalize ("color|" +:+ f +:+ "|" +:+ b) as qd. intros qd Hsplit Hstart.
  unfold color_button_handler, mbind, M_bind. simpl. rewrite Hstart, Hsplit. simpl.
  eexists. split; [reflexivity|]. simpl.
  unfold user_data. simpl. rewrite !lookup_insert_eq. simpl.
  split_and!.
  - by rewrite lookup_insert_ne, lookup_insert_eq.
  - by rewrite lookup_insert_eq.
  - intros other Hne. by rewrite !lookup_insert_ne.
  - done.
  - by rewrite <- !app_assoc.
Qed.

(** X2: a callback whose data begins with [color] but does not split
    into exactly three parts at the pipes is answered and then leaves the
    handler by [ValueError]: nothing is stored and nothing else is sent. *)
Theorem color_button_handler_rejects_other_shapes user qd w :
  startswith "color" qd = true ->
  length (split pipe qd) <> 3%nat ->
  color_button_handler (CallbackUpdate user qd) w
  = (Raise ValueError, set_outbox (outbox w ++ [answer])%list w).
Proof.
  intros Hstart Hlen.
  unfold color_button_handler, mbind, M_bind. simpl. rewrite Hstart.
  destruct (split pipe qd) as [|p0 [|p1 [|p2 [|p3 ps]]]]; simpl in *; done.
Qed.

(** X15: every entry of the colour table has its button, and the button
    leads to the entry's colours: for each label with the colours [fc] and
    [bc] in [COLORS], the colour keyboard holds a button with that label, and
    pressing it ends normally with [fc] and [bc] stored for the user. *)
Theorem color_keyboard_round_trip label fc bc user w :
  In (label, (fc, bc)) COLORS ->
  exists button w',
    In [button] get_color_keyboard /\
    button_text button = label /\
    color_button_handler (CallbackUpdate user (callback_data button)) w = (Ok tt, w') /\
    user_data (id user) w' !! "fill_color" = Some fc /\
    user_data (id user) w' !! "bg_color" = Some bc.
Proof.
  intros Hin.
  assert (Hpipes : contains pipe fc = false /\ contains pipe bc = false).
  { simpl in Hin. repeat (destruct Hin as [[= <- <- <-]|Hin]; [by split|]). done. }
  destruct Hpipes as [Hfc Hbc].
  destruct (color_button_handler_pick user fc bc w Hfc Hbc) as (w' & Hrun & Hfill & Hbg & _).
  exists (mkButton label ("color|" +:+ fc +:+ "|" +:+ bc)), w'.
  split; [|done].
  unfold get_color_keyboard. apply in_or_app. left.
  apply in_map_iff. by exists (label, (fc, bc)).
Qed.

Section PickAndEncode.

Variable getrgb : string -> option Color.
Variable optimal_data_chunks : string -> list QRData.
Variable rs_data_count : ErrorCorrection -> nat -> nat.
Variable make_modules : nat -> ErrorCorrection -> list QRData -> list (list bool).
Variable png_encode : Raster RGBAPixel -> bytes.

Local Abbreviation generate_qr' :=
  (generate_qr getrgb optimal_data_chunks rs_data_count make_modules png_encode).
Local Abbreviation handle_message' :=
  (handle_message getrgb optimal_data_chunks rs_data_count make_modules png_encode).
Local Abbreviation encode_and_reply' :=
  (encode_and_reply getrgb optimal_data_chunks rs_data_count make_modules png_encode).

(** X1: pressing a colour button whose data is [color|f|b] stores [f]
    and [b] as the colours of the user who pressed it, answers the query and
    confirms with one message; the colours of every other user and the
    database stay as they were.  A text without a pipe that this user sends
    next is encoded with the colours [f] and [b]. *)
Theorem picked_colours_are_stored_and_used user f b text w :
  contains pipe f = false ->
  contains pipe b = false ->
  contains pipe text = false ->
  exists w',
    color_button_handler (CallbackUpdate user ("color|" +:+ f +:+ "|" +:+ b)) w = (Ok tt, w') /\
    user_data (id user) w' !! "fill_color" = Some f /\
    user_data (id user) w' !! "bg_color" = Some b /\
    (forall other, other <> id user -> all_user_data w' !! other = all_user_data w !! other) /\
    db w' = db w /\
    outbox w' = (outbox w ++ [answer;
                   edit_message "✅ Цвет выбран. Отправьте текст для QR-кода."
                                back_to_menu_keyboard])%list /\
    handle_message' (MessageUpdate user text) w'
    = encode_and_reply' (MessageUpdate user text) user text f b w'.
Proof.
  intros Hf Hb Htext.
  destruct (color_button_handler_pick user f b w Hf Hb)
    as (w' & Hrun & Hfill & Hbg & Hother & Hdb & Hout).
  exists w'. split_and!; try done.
  unfold handle_message, mbind, M_bind, user_data_get, parse_payload.
  by rewrite Htext, Hfill, Hbg.
Qed.

(** X7: a text with exactly one pipe, [t|f], replaces the fill colour
    only: it is encoded as [t] in [f] on the stored background, or on white
    when none is stored. *)
Theorem handle_message_fill_only_override user t f w :
  contains pipe t = false ->
  contains pipe f = false ->
  handle_message' (MessageUpdate user (t +:+ "|" +:+ f)) w
  = encode_and_reply' (MessageUpdate user (t +:+ "|" +:+ f)) user t f
      (default "white" (user_data (id user) w !! "bg_color")) w.
Proof.
  intros Ht Hf.
  unfold handle_message, mbind, M_bind, user_data_get, parse_payload.
  change (t +:+ "|" +:+ f) with (t +:+ String pipe f).
  rewrite contains_app_sep, split_app_sep by done.
  by rewrite (split_no_sep _ _ Hf).
Qed.

End PickAndEncode.

(** ** Buttons, and the database being down *)

Section ButtonProperties.

Variable getrgb : string -> option Color.
Variable optimal_data_chunks : string -> list QRData.
Variable rs_data_count : ErrorCorrection -> nat -> nat.
Variable make_modules : nat -> ErrorCorrection -> list QRData -> list (list bool).
Variable png_encode : Raster RGBAPixel -> bytes.
Variable strftime : Z -> string.

Local Abbreviation callback' :=
  (callback getrgb optimal_data_chunks rs_data_count make_modules png_encode strftime).

(** X3: no button of the three keyboards is dead.  While the database
    answers, the data of every button of the main menu, of the way back to it
    and of the colour keyboard matches the pattern of a registered handler,
    and that handler ends normally after answering the query and editing the
    message once, without touching the database. *)
Theorem every_button_is_handled user w button :
  db_up w = true ->
  In button (concat main_keyboard ++ concat back_to_menu_keyboard
             ++ concat get_color_keyboard)%list ->
  exists h w' text markup,
    callback_query_handler (callback_data button) = Some h /\
    callback' h (CallbackUpdate user (callback_data button)) w = (Ok tt, w') /\
    outbox w' = (outbox w ++ [answer; edit_message text markup])%list /\
    db w' = db w.
Proof.
  intros Hup Hin. vm_compute in Hin.
  repeat (destruct Hin as [<-|Hin]); [..|done];
    do 4 eexists; (split; [reflexivity|]);
    unfold callback, button_handler, color_button_handler, send_with_main_menu,
      query_history, user_data_set, send, mbind, M_bind; simpl; rewrite ?Hup; simpl;
    (split; [reflexivity|]); simpl; rewrite <- ?app_assoc; split; reflexivity.
Qed.

(** X4: only the history needs the database.  Whatever the state of
    the database, [button_handler] on any other data ends normally, having
    answered and sent at most one more message, and changes nothing but the
    outbox.  On the history button with the database down it answers the
    query and is then left by the exception of the query: no history text and
    no error text is sent.  [start] with the database down is left by the
    exception before anything is sent. *)
Theorem only_history_and_start_need_database user qd update w :
  (qd <> "show_history" ->
   exists sent,
     button_handler strftime (CallbackUpdate user qd) w
     = (Ok tt, set_outbox (outbox w ++ answer :: sent)%list w) /\
     (length sent <= 1)%nat) /\
  (db_up w = false ->
   button_handler strftime (CallbackUpdate user "show_history") w
   = (Raise OperationalError, set_outbox (outbox w ++ [answer])%list w) /\
   start update w = (Raise OperationalError, w)).
Proof.
  split.
  - intros Hne. unfold button_handler, send_with_main_menu, send, mbind, M_bind. simpl.
    destruct (String.eqb qd "create_qr");
      [eexists; unfold set_outbox; simpl; rewrite <- app_assoc;
       split; [reflexivity|simpl; lia]|].
    destruct (String.eqb qd "show_history") eqn:Hh; [by apply String.eqb_eq in Hh|].
    destruct (String.eqb qd "help");
      [eexists; unfold set_outbox; simpl; rewrite <- app_assoc;
       split; [reflexivity|simpl; lia]|].
    destruct (String.eqb qd "donate");
      [eexists; unfold set_outbox; simpl; rewrite <- app_assoc;
       split; [reflexivity|simpl; lia]|].
    destruct (String.eqb qd "main_menu");
      [eexists; unfold set_outbox; simpl; rewrite <- app_assoc;
       split; [reflexivity|simpl; lia]|].
    exists []. split; [reflexivity|simpl; lia].
  - intros Hdown. split.
    + unfold button_handler, send, query_history, mbind, M_bind. simpl. by rewrite Hdown.
    + unfold start, query_user_first, mbind, M_bind. by rewrite Hdown.
Qed.

End ButtonProperties.

(** ** Registering the user *)

(** What [start] does to the database while it answers. *)
Lemma start_db update w :
  db_up w = true ->
  exists added,
    db (start update w).2 = mkDatabase (users (db w) ++ added) (history (db w)) /\
    db_up (start update w).2 = true /\
    utcnow (start update w).2 = utcnow w /\
    ((added = [] /\
      str (id (effective_user update)) ∈ user_user_id <$> users (db w)) \/
     (added = [mkUser (str (id (effective_user update)))
                      (first_name (effective_user update)) (utcnow w)] /\
      str (id (effective_user update)) ∉ user_user_id <$> users (db w))).
Proof.
  destruct w as [ud [us hs] up now lg ob]. simpl. intros ->.
  unfold start, query_user_first, add_user_commit, get_world, send, raise, mbind, M_bind,
    mret, M_ret. simpl.
  destruct (filter _ us) as [|u l] eqn:Hf; simpl.
  - exists [mkUser (str (id (effective_user update)))
                   (first_name (effective_user update)) now].
    split_and!; try (destruct update; simpl; try destruct lg; done).
    right. split; [done|]. intros Hin.
    apply list_elem_of_fmap in Hin as (u & Hu & Huin).
    by apply (filter_nil_not_elem_of _ _ u Hf).
  - exists []. rewrite app_nil_r.
    split_and!; try (destruct update; simpl; try destruct lg; done).
    left. split; [done|].
    assert (Hu : u ∈ filter (fun u0 => user_user_id u0 = str (id (effective_user update))) us)
      by (rewrite Hf; by left).
    apply list_elem_of_filter in Hu as [Hid Huin].
    apply list_elem_of_fmap. by exists u.
Qed.

(** What [start] sends in reply to a message while the database answers. *)
Lemma start_message_outbox user text w :
  db_up w = true ->
  exists welcome,
    (start (MessageUpdate user text) w).1 = Ok tt /\
    outbox (start (MessageUpdate user text) w).2 = (outbox w ++ [welcome])%list /\
    all_user_data (start (MessageUpdate user text) w).2 = all_user_data w /\
    ((logo w = None /\
      welcome = reply_text (welcome_text (first_name user)) main_keyboard) \/
     (exists photo, logo w = Some photo /\
      welcome = reply_photo photo (welcome_text (first_name user)) main_keyboard)).
Proof.
  destruct w as [ud [us hs] up now lg ob]. simpl. intros ->.
  unfold start, query_user_first, add_user_commit, get_world, send, raise, mbind, M_bind,
    mret, M_ret. simpl.
  destruct (head _); simpl; destruct lg as [photo|]; simpl; eauto 10.
Qed.

(** X5: [start] registers a user once.  While the database answers,
    after [start] the user of the update has a row in the user table; at most
    one row was added and none was removed or changed; user ids that were
    unique stay unique; and running [start] again adds nothing. *)
Theorem start_registers_once update w :
  db_up w = true ->
  NoDup (user_user_id <$> users (db w)) ->
  NoDup (user_user_id <$> users (db (start update w).2)) /\
  str (id (effective_user update)) ∈ user_user_id <$> users (db (start update w).2) /\
  (exists added, users (db (start update w).2) = (users (db w) ++ added)%list /\
                 (length added <= 1)%nat) /\
  users (db (start update (start update w).2).2) = users (db (start update w).2).
Proof.
  intros Hup Hnodup.
  destruct (start_db update w Hup) as (added & Hdb & Hup' & _ & Hadded).
  destruct (start_db update _ Hup') as (added' & Hdb' & _ & _ & Hadded').
  rewrite Hdb', Hdb in *. simpl in *.
  assert (Hin : str (id (effective_user update)) ∈ user_user_id <$> (users (db w) ++ added)%list).
  { rewrite fmap_app, elem_of_app.
    destruct Hadded as [[-> Hin]|[-> _]]; [by left|right; by left]. }
  split_and!.
  - rewrite fmap_app. apply NoDup_app. split; [done|].
    destruct Hadded as [[-> _]|[-> Hnew]]; simpl.
    + split; [intros ? _ []%elem_of_nil|constructor].
    + split; [|by apply NoDup_singleton].
      intros x Hx ->%list_elem_of_singleton. done.
  - done.
  - exists added. split; [done|]. destruct Hadded as [[-> _]|[-> _]]; simpl; lia.
  - destruct Hadded' as [[-> _]|[_ Hnot]]; [by rewrite app_nil_r|done].
Qed.

(** ** A text message from end to end *)

(** [best_fit] ends in the [ValueError] of the version setter when no
    version from [start] on fits. *)
Lemma best_fit_rec_overflow fuel limits dl start :
  nondecreasing limits = true ->
  length limits = 41%nat ->
  (1 <= start <= 40)%nat ->
  (2 - mode_sizes_rank (mode_sizes_for_version start) < fuel)%nat ->
  (forall v, (start <= v <= 40)%nat -> ~ fits limits dl v) ->
  best_fit_rec fuel limits dl start = Raise ValueError.
Proof.
  intros Hs Hlen. revert start.
  induction fuel as [|fuel IH]; intros start Hstart Hfuel Hnone; [lia|].
  destruct (bisect_left_spec limits (needed_bits (mode_sizes_for_version start) dl) start Hs)
    as (Hr & _ & Hhigh); [lia|].
  simpl. unfold check_version.
  replace ((1 <=? start)%nat && (start <=? 40)%nat) with true
    by (symmetry; apply andb_true_intro; split; apply Nat.leb_le; lia).
  set (v := bisect_left _ _ _) in *.
  destruct ((1 <=? v)%nat && (v <=? 40)%nat) eqn:Hcheck; [|done].
  apply andb_prop in Hcheck as [_ Hv40]. apply Nat.leb_le in Hv40.
  replace (v =? 41)%nat with false by (symmetry; apply Nat.eqb_neq; lia).
  destruct (mode_sizes_is _ _) eqn:Hsame.
  - apply mode_sizes_is_true in Hsame.
    destruct (Hnone v); [lia|]. unfold fits. rewrite <- Hsame. apply Hhigh. lia.
  - apply mode_sizes_is_false in Hsame.
    pose proof (mode_sizes_rank_mono start v ltac:(lia)) as Hmono.
    apply IH; [lia| |intros v' Hv'; apply Hnone; lia].
    assert (mode_sizes_rank (mode_sizes_for_version v) <= 2)%nat
      by (destruct (mode_sizes_for_version v); simpl; lia).
    lia.
Qed.

Section MessageProperties.

Variable getrgb : string -> option Color.
Variable optimal_data_chunks : string -> list QRData.
Variable rs_data_count : ErrorCorrection -> nat -> nat.
Variable make_modules : nat -> ErrorCorrection -> list QRData -> list (list bool).
Variable png_encode : Raster RGBAPixel -> bytes.

Local Abbreviation generate_qr' :=
  (generate_qr getrgb optimal_data_chunks rs_data_count make_modules png_encode).
Local Abbreviation handle_message' :=
  (handle_message getrgb optimal_data_chunks rs_data_count make_modules png_encode).
Local Abbreviation limits_H := (BIT_LIMIT_TABLE rs_data_count ERROR_CORRECT_H).

(** The world after a text message whose image was produced, while the
    database answers. *)
Lemma handle_message_success user text w d fc bc image :
  parse_payload text
    (default "black" (user_data (id user) w !! "fill_color"))
    (default "white" (user_data (id user) w !! "bg_color")) = (d, fc, bc) ->
  generate_qr' d fc bc = Ok (Some image) ->
  db_up w = true ->
  handle_message' (MessageUpdate user text) w
  = start (MessageUpdate user text)
      (set_outbox
         (outbox w ++ [reply_photo image "Вот ваш QR-код!" back_to_menu_keyboard])%list
         (set_db (mkDatabase (users (db w))
                    (history (db w) ++ [mkQRHistory (str (id user)) d fc bc (utcnow w)])%list)
                 w)).
Proof.
  intros Hparse Hgen Hup.
  rewrite (handle_message_run getrgb optimal_data_chunks rs_data_count make_modules png_encode).
  by rewrite Hparse, Hgen, Hup.
Qed.

(** X6: a text message whose image is produced while the database
    answers ends normally and has exactly these effects: one row is appended
    to the history, with the user's id, the text that was encoded, the two
    colour names as they were given and the time of the clock; two messages
    are sent, first the picture with the way back to the menu, then the
    welcome with the main menu (on the logo when there is one); the user has a
    row in the user table; the stored colours are untouched. *)
Theorem handle_message_success_effect user text w d fc bc image :
  parse_payload text
    (default "black" (user_data (id user) w !! "fill_color"))
    (default "white" (user_data (id user) w !! "bg_color")) = (d, fc, bc) ->
  generate_qr' d fc bc = Ok (Some image) ->
  db_up w = true ->
  exists w' welcome,
    handle_message' (MessageUpdate user text) w = (Ok tt, w') /\
    history (db w')
    = (history (db w) ++ [mkQRHistory (str (id user)) d fc bc (utcnow w)])%list /\
    outbox w'
    = (outbox w ++ [reply_photo image "Вот ваш QR-код!" back_to_menu_keyboard; welcome])%list /\
    ((logo w = None /\
      welcome = reply_text (welcome_text (first_name user)) main_keyboard) \/
     (exists photo, logo w = Some photo /\
      welcome = reply_photo photo (welcome_text (first_name user)) main_keyboard)) /\
    str (id user) ∈ user_user_id <$> users (db w') /\
    all_user_data w' = all_user_data w.
Proof.
  intros Hparse Hgen Hup.
  rewrite (handle_message_success user text w d fc bc image Hparse Hgen Hup).
  set (w1 := set_outbox _ _).
  assert (Hup1 : db_up w1 = true) by done.
  destruct (start_message_outbox user text w1 Hup1) as (welcome & Hres & Hout & Hud & Hwel).
  destruct (start_db (MessageUpdate user text) w1 Hup1) as (added & Hdb & _ & _ & Hadded).
  exists (start (MessageUpdate user text) w1).2, welcome. split_and!.
  - destruct (start (MessageUpdate user text) w1) as [r w2]. simpl in *. by rewrite Hres.
  - by rewrite Hdb.
  - rewrite Hout. subst w1. simpl. by rewrite <- app_assoc.
  - done.
  - rewrite Hdb. simpl. rewrite fmap_app, elem_of_app.
    destruct Hadded as [[-> Hin]|[-> _]]; [by left|right; by left].
  - by rewrite Hud.
Qed.

(** X8: a text that is too large.  When both colours are accepted and
    the chunks of the text fit no version from 1 to 40 at level H,
    [generate_qr] is left by the [ValueError] that the version setter raises
    for version 41: it is raised after the [try] around the two colours, so
    nothing catches it and no [None] is returned.  [handle_message] is left by
    it with the world as it was: no reply, no picture, no history row. *)
Theorem handle_message_text_too_large user text w d fc bc fill back :
  nondecreasing limits_H = true ->
  parse_payload text
    (default "black" (user_data (id user) w !! "fill_color"))
    (default "white" (user_data (id user) w !! "bg_color")) = (d, fc, bc) ->
  getrgb fc = Some fill ->
  getrgb bc = Some back ->
  (forall v, (1 <= v <= 40)%nat -> ~ fits limits_H (optimal_data_chunks d) v) ->
  generate_qr' d fc bc = Raise ValueError /\
  handle_message' (MessageUpdate user text) w = (Raise ValueError, w).
Proof.
  intros Hs Hparse Hfill Hback Hnone.
  assert (Hgen : generate_qr' d fc bc = Raise ValueError).
  { rewrite generate_qr_run, Hfill, Hback. unfold best_fit.
    rewrite best_fit_rec_overflow; [done|done|reflexivity|lia| |done].
    destruct (mode_sizes_for_version 1); simpl; lia. }
  split; [done|].
  rewrite (handle_message_run getrgb optimal_data_chunks rs_data_count make_modules png_encode).
  by rewrite Hparse, Hgen.
Qed.

End MessageProperties.

(** ** The history, again *)

(** X9: the limit of five is reached whenever there is enough to
    show: while the database answers, the history query returns as many rows
    as the user has, and five when the user has more. *)
Theorem query_history_length uid w :
  db_up w = true ->
  exists rows,
    query_history uid w = (Ok rows, w) /\
    length rows = Nat.min 5 (length (filter (fun h => user_id h = uid) (history (db w)))).
Proof.
  intros Hup. unfold query_history. rewrite Hup.
  eexists. split; [reflexivity|].
  rewrite length_take. f_equal.
  apply Permutation_length, merge_sort_Permutation.
Qed.

(** The sort of [order_by] leaves the rows from the newest to the oldest. *)
Lemma merge_sort_newer_first l : StronglySorted newer_first (merge_sort newer_first l).
Proof.
  apply StronglySorted_merge_sort.
  - intros a b c. unfold newer_first. lia.
  - intros a b. unfold newer_first. lia.
Qed.

Section HistoryAfterEncode.

Variable getrgb : string -> option Color.
Variable optimal_data_chunks : string -> list QRData.
Variable rs_data_count : ErrorCorrection -> nat -> nat.
Variable make_modules : nat -> ErrorCorrection -> list QRData -> list (list bool).
Variable png_encode : Raster RGBAPixel -> bytes.

Local Abbreviation generate_qr' :=
  (generate_qr getrgb optimal_data_chunks rs_data_count make_modules png_encode).
Local Abbreviation handle_message' :=
  (handle_message getrgb optimal_data_chunks rs_data_count make_modules png_encode).

(** X10: what was just encoded comes first in the history.  When a
    text message of a user has been encoded while the database answers, and
    every earlier row of that user is older than the clock, the history query
    in the resulting world returns the new row at the head. *)
Theorem encoded_text_heads_history user text w d fc bc image :
  parse_payload text
    (default "black" (user_data (id user) w !! "fill_color"))
    (default "white" (user_data (id user) w !! "bg_color")) = (d, fc, bc) ->
  generate_qr' d fc bc = Ok (Some image) ->
  db_up w = true ->
  (forall h, h ∈ history (db w) -> user_id h = str (id user) -> created_at h < utcnow w) ->
  exists rest,
    query_history (str (id user)) (handle_message' (MessageUpdate user text) w).2
    = (Ok (mkQRHistory (str (id user)) d fc bc (utcnow w) :: rest),
       (handle_message' (MessageUpdate user text) w).2).
Proof.
  intros Hparse Hgen Hup Hold.
  rewrite (handle_message_success getrgb optimal_data_chunks rs_data_count make_modules
             png_encode user text w d fc bc image Hparse Hgen Hup).
  set (w1 := set_outbox _ _).
  assert (Hup1 : db_up w1 = true) by exact Hup.
  destruct (start_db (MessageUpdate user text) w1 Hup1) as (added & Hdb & Hup' & _ & _).
  set (w' := (start (MessageUpdate user text) w1).2) in *.
  unfold query_history. rewrite Hup', Hdb. simpl.
  set (row := mkQRHistory (str (id user)) d fc bc (utcnow w)).
  rewrite filter_app, filter_cons_True, filter_nil by done.
  set (old := filter _ (history (db w))).
  pose proof (merge_sort_Permutation newer_first (old ++ [row])) as Hperm.
  pose proof (merge_sort_newer_first (old ++ [row])) as Hsorted.
  destruct (merge_sort newer_first (old ++ [row])) as [|h0 tl] eqn:Hms.
  { apply Permutation_length in Hperm. rewrite length_app in Hperm. simpl in Hperm. lia. }
  assert (Hrow : row ∈ h0 :: tl) by (rewrite Hperm, elem_of_app; right; by left).
  assert (Hh0 : h0 ∈ (old ++ [row])%list) by (rewrite <- Hperm; by left).
  assert (h0 = row) as ->.
  { apply elem_of_app in Hh0 as [Hin|Hin%list_elem_of_singleton]; [|done].
    apply list_elem_of_filter in Hin as [Huid Hin].
    pose proof (Hold h0 Hin Huid) as Hlt.
    apply elem_of_cons in Hrow as [->|Htl]; [done|].
    apply StronglySorted_cons in Hsorted as [Hall _].
    rewrite Forall_forall in Hall. pose proof (Hall row Htl) as Hle.
    unfold newer_first in Hle. simpl in Hle. lia. }
  by exists (take 4 tl).
Qed.

End HistoryAfterEncode.

(** ** Any sequence of updates *)

Lemma parse_payload_data text sf sb d fc bc :
  parse_payload text sf sb = (d, fc, bc) -> contains pipe d = false.
Proof.
  unfold parse_payload. destruct (contains pipe text) eqn:Hpipe.
  - destruct (split_head _ _ Hpipe) as (p & ps & Hs & _ & Hp & _).
    rewrite Hs. simpl. by intros [= <- _ _].
  - by intros [= <- _ _].
Qed.

Lemma button_handler_frame strftime update w :
  db (button_handler strftime update w).2 = db w /\
  all_user_data (button_handler strftime update w).2 = all_user_data w.
Proof.
  destruct update as [user text|user qd]; [done|].
  unfold button_handler, send_with_main_menu, query_history, send, mbind, M_bind. simpl.
  repeat (match goal with |- context [String.eqb qd ?t] => destruct (String.eqb qd t) end;
          [try done|]); try done.
  destruct w as [ud d up now lg ob]. simpl. by destruct up.
Qed.

Lemma color_button_handler_frame update w :
  db (color_button_handler update w).2 = db w.
Proof.
  destruct update as [user text|user qd]; [done|].
  unfold color_button_handler, send_with_main_menu, user_data_set, send, raise, mbind, M_bind.
  simpl. destruct (startswith "color" qd).
  - by destruct (split pipe qd) as [|p0 [|p1 [|p2 [|p3 ps]]]].
  - by destruct (String.eqb qd "back_to_menu").
Qed.

(** [start] in any state of the database. *)
Lemma start_step update w :
  exists added,
    db (start update w).2 = mkDatabase (users (db w) ++ added) (history (db w)) /\
    (NoDup (user_user_id <$> users (db w)) ->
     NoDup (user_user_id <$> (users (db w) ++ added)%list)) /\
    all_user_data (start update w).2 = all_user_data w.
Proof.
  destruct (db_up w) eqn:Hup.
  - destruct (start_db update w Hup) as (added & Hdb & _ & _ & Hadded).
    exists added. split; [done|]. split; [|apply start_frame].
    intros Hnodup. rewrite fmap_app. apply NoDup_app. split; [done|].
    destruct Hadded as [[-> _]|[-> Hnew]]; simpl.
    + split; [intros ? _ []%elem_of_nil|constructor].
    + split; [|by apply NoDup_singleton].
      intros x Hx ->%list_elem_of_singleton. done.
  - exists []. rewrite app_nil_r.
    unfold start, query_user_first, mbind, M_bind. rewrite Hup. simpl.
    by destruct w as [ud [us hs] up now lg ob].
Qed.

Section ApplicationProperties.

Variable getrgb : string -> option Color.
Variable optimal_data_chunks : string -> list QRData.
Variable rs_data_count : ErrorCorrection -> nat -> nat.
Variable make_modules : nat -> ErrorCorrection -> list QRData -> list (list bool).
Variable png_encode : Raster RGBAPixel -> bytes.
Variable strftime : Z -> string.

Local Abbreviation generate_qr' :=
  (generate_qr getrgb optimal_data_chunks rs_data_count make_modules png_encode).
Local Abbreviation callback' :=
  (callback getrgb optimal_data_chunks rs_data_count make_modules png_encode strftime).
Local Abbreviation process_updates' :=
  (process_updates getrgb optimal_data_chunks rs_data_count make_modules png_encode strftime).
Local Abbreviation well_recorded :=
  (fun h : QRHistory =>
     contains pipe (data h) = false /\
     is_Some (getrgb (fill_color h)) /\ is_Some (getrgb (bg_color h))).

Lemma generate_qr_Some_colours d fc bc image :
  generate_qr' d fc bc = Ok (Some image) ->
  is_Some (getrgb fc) /\ is_Some (getrgb bc).
Proof.
  rewrite generate_qr_run.
  destruct (getrgb fc), (getrgb bc); done.
Qed.

(** One call of a handler. *)
Lemma callback_step h update w :
  exists added_users added_rows,
    db (callback' h update w).2
    = mkDatabase (users (db w) ++ added_users) (history (db w) ++ added_rows) /\
    (NoDup (user_user_id <$> users (db w)) ->
     NoDup (user_user_id <$> (users (db w) ++ added_users)%list)) /\
    Forall well_recorded added_rows /\
    (h <> on_color_button -> all_user_data (callback' h update w).2 = all_user_data w).
Proof.
  assert (Hsame : forall w' : World,
    db w' = db w -> (h <> on_color_button -> all_user_data w' = all_user_data w) ->
    exists added_users added_rows,
      db w' = mkDatabase (users (db w) ++ added_users) (history (db w) ++ added_rows) /\
      (NoDup (user_user_id <$> users (db w)) ->
       NoDup (user_user_id <$> (users (db w) ++ added_users)%list)) /\
      Forall well_recorded added_rows /\
      (h <> on_color_button -> all_user_data w' = all_user_data w)).
  { intros w' Hdb Hud. exists [], []. rewrite !app_nil_r.
    split_and!; [|done|done|done]. rewrite Hdb. by destruct (db w). }
  destruct h; simpl.
  - destruct (start_step update w) as (added & Hdb & Hnodup & Hud).
    exists added, []. rewrite app_nil_r. done.
  - apply Hsame; [apply button_handler_frame|intros _; apply button_handler_frame].
  - apply Hsame; [apply color_button_handler_frame|done].
  - destruct update as [user text|user qd]; [|by apply Hsame].
    rewrite handle_message_run.
    destruct (parse_payload _ _ _) as [[d fc] bc] eqn:Hparse.
    destruct (generate_qr' d fc bc) as [[image|]|e] eqn:Hgen; [|by apply Hsame..].
    destruct (db_up w); [|by apply Hsame].
    set (w1 := set_outbox _ _).
    destruct (start_step (MessageUpdate user text) w1) as (added & Hdb & Hnodup & Hud).
    exists added, [mkQRHistory (str (id user)) d fc bc (utcnow w)].
    split_and!; [done|done| |intros _; by rewrite Hud].
    constructor; [|constructor]. simpl.
    split; [by eapply parse_payload_data|].
    by apply (generate_qr_Some_colours d fc bc image).
Qed.

(** X11: whatever updates arrive and whichever handlers run, in any
    order and with any outcome, the user table only grows at its end, and
    user ids that were unique stay unique. *)
Theorem process_updates_keeps_users_unique calls w :
  NoDup (user_user_id <$> users (db w)) ->
  NoDup (user_user_id <$>
           users (db (process_updates getrgb optimal_data_chunks rs_data_count
                        make_modules png_encode strftime calls w))) /\
  exists added,
    users (db (process_updates getrgb optimal_data_chunks rs_data_count
                 make_modules png_encode strftime calls w))
    = (users (db w) ++ added)%list.
Proof.
  revert w. induction calls as [|[h update] calls IH]; intros w Hnodup; simpl.
  - split; [done|]. exists []. by rewrite app_nil_r.
  - destruct (callback_step h update w) as (au & ar & Hdb & Hnd & _ & _).
    destruct (IH (callback' h update w).2) as [Hnodup' (added & Hadded)].
    { rewrite Hdb. simpl. by apply Hnd. }
    split; [done|]. exists (au ++ added)%list.
    rewrite Hadded, Hdb. simpl. by rewrite app_assoc.
Qed.

(** X12: whatever updates arrive, the history is only appended to: no
    row is ever removed or changed.  Every row that is added records a text
    without a pipe and two colour names that [getrgb] accepts. *)
Theorem process_updates_appends_history calls w :
  exists added,
    history (db (process_updates getrgb optimal_data_chunks rs_data_count
                   make_modules png_encode strftime calls w))
    = (history (db w) ++ added)%list /\
    Forall well_recorded added.
Proof.
  revert w. induction calls as [|[h update] calls IH]; intros w; simpl.
  - exists []. by rewrite app_nil_r.
  - destruct (callback_step h update w) as (au & ar & Hdb & _ & Hrows & _).
    destruct (IH (callback' h update w).2) as (added & Hadded & Hok).
    exists (ar ++ added)%list. split.
    + rewrite Hadded, Hdb. simpl. by rewrite app_assoc.
    + by apply Forall_app.
Qed.

(** X13: the stored colours change only through the colour buttons:
    a sequence of updates in which [color_button_handler] does not run leaves
    the colours of every user as they were. *)
Theorem only_color_buttons_change_colours calls w :
  Forall (fun call => call.1 <> on_color_button) calls ->
  all_user_data (process_updates getrgb optimal_data_chunks rs_data_count
                   make_modules png_encode strftime calls w)
  = all_user_data w.
Proof.
  revert w. induction calls as [|[h update] calls IH]; intros w Hcalls; simpl; [done|].
  inversion Hcalls as [|? ? Hh Hrest]; subst. simpl in Hh.
  destruct (callback_step h update w) as (au & ar & _ & _ & _ & Hud).
  rewrite IH by done. by apply Hud.
Qed.

End ApplicationProperties.

(** ** Two colours that look the same *)

Section SameColours.

Variable getrgb : string -> option Color.
Variable optimal_data_chunks : string -> list QRData.
Variable rs_data_count : ErrorCorrection -> nat -> nat.
Variable make_modules : nat -> ErrorCorrection -> list QRData -> list (list bool).
Variable png_encode : Raster RGBAPixel -> bytes.

Local Abbreviation generate_qr' :=
  (generate_qr getrgb optimal_data_chunks rs_data_count make_modules png_encode).
Local Abbreviation limits_H := (BIT_LIMIT_TABLE rs_data_count ERROR_CORRECT_H).


End SameColours.

(** ** The further properties at work on the sample tables *)

Lemma picked_colours_are_stored_and_used_witness :
  contains pipe "red" = false /\
  contains pipe "white" = false /\
  contains pipe "hello" = false /\
  exists w',
    color_button_handler (CallbackUpdate sample_user "color|red|white") sample_world
    = (Ok tt, w') /\
    user_data (id sample_user) w' !! "fill_color" = Some "red" /\
    sample_handle_message (MessageUpdate sample_user "hello") w'
    = sample_encode_and_reply (MessageUpdate sample_user "hello") sample_user
        "hello" "red" "white" w'.
Proof.
  split; [reflexivity|]. split; [reflexivity|]. split; [reflexivity|].
  destruct (picked_colours_are_stored_and_used sample_getrgb sample_optimal_data_chunks
              sample_rs_data_count sample_make_modules sample_png_encode
              sample_user "red" "white" "hello" sample_world eq_refl eq_refl eq_refl)
    as (w' & Hrun & Hfill & _ & _ & _ & _ & Huse).
  exists w'. split; [exact Hrun|]. split; [exact Hfill|exact Huse].
Defined.

Lemma color_button_handler_rejects_other_shapes_witness :
  startswith "color" "colorful" = true /\
  length (split pipe "colorful") <> 3%nat /\
  color_button_handler (CallbackUpdate sample_user "colorful") sample_world
  = (Raise ValueError, set_outbox (outbox sample_world ++ [answer])%list sample_world).
Proof.
  split; [reflexivity|]. split; [vm_compute; lia|].
  apply (color_button_handler_rejects_other_shapes sample_user "colorful" sample_world).
  - reflexivity.
  - vm_compute. lia.
Defined.

Lemma every_button_is_handled_witness :
  db_up sample_world = true /\
  exists h w' text markup,
    callback_query_handler "show_history" = Some h /\
    sample_callback h (CallbackUpdate sample_user "show_history") sample_world = (Ok tt, w') /\
    outbox w' = (outbox sample_world ++ [answer; edit_message text markup])%list /\
    db w' = db sample_world.
Proof.
  split; [reflexivity|].
  apply (every_button_is_handled sample_getrgb sample_optimal_data_chunks
           sample_rs_data_count sample_make_modules sample_png_encode sample_strftime
           sample_user sample_world (mkButton "📜 История" "show_history")).
  - reflexivity.
  - vm_compute. right. left. reflexivity.
Defined.

Lemma only_history_and_start_need_database_witness :
  db_up sample_world_down = false /\
  button_handler sample_strftime (CallbackUpdate sample_user "show_history") sample_world_down
  = (Raise OperationalError,
     set_outbox (outbox sample_world_down ++ [answer])%list sample_world_down) /\
  start (MessageUpdate sample_user "/start") sample_world_down
  = (Raise OperationalError, sample_world_down).
Proof.
  split; [reflexivity|].
  apply (only_history_and_start_need_database sample_strftime sample_user "help"
           (MessageUpdate sample_user "/start") sample_world_down).
  reflexivity.
Defined.

Lemma start_registers_once_witness :
  db_up sample_world = true /\
  NoDup (user_user_id <$> users (db sample_world)) /\
  str (id (effective_user (MessageUpdate sample_user "/start")))
  ∈ user_user_id <$> users (db (start (MessageUpdate sample_user "/start") sample_world).2).
Proof.
  split; [reflexivity|]. split; [constructor|].
  apply (start_registers_once (MessageUpdate sample_user "/start") sample_world).
  - reflexivity.
  - constructor.
Defined.

Lemma handle_message_success_effect_witness :
  sample_generate_qr "hello" "red" "white"
  = Ok (Some (sample_image "hello" (RGB 255 0 0) (RGB 255 255 255))) /\
  db_up sample_world = true /\
  exists w' welcome,
    sample_handle_message (MessageUpdate sample_user "hello|red|white") sample_world
    = (Ok tt, w') /\
    history (db w')
    = (history (db sample_world)
       ++ [mkQRHistory (str (id sample_user)) "hello" "red" "white" (utcnow sample_world)])%list /\
    outbox w'
    = (outbox sample_world
       ++ [reply_photo (sample_image "hello" (RGB 255 0 0) (RGB 255 255 255))
             "Вот ваш QR-код!" back_to_menu_keyboard; welcome])%list.
Proof.
  split; [reflexivity|]. split; [reflexivity|].
  destruct (handle_message_success_effect sample_getrgb sample_optimal_data_chunks
              sample_rs_data_count sample_make_modules sample_png_encode
              sample_user "hello|red|white" sample_world "hello" "red" "white"
              (sample_image "hello" (RGB 255 0 0) (RGB 255 255 255))
              eq_refl eq_refl eq_refl)
    as (w' & welcome & Hrun & Hhist & Hout & _).
  exists w', welcome. split; [exact Hrun|]. split; [exact Hhist|exact Hout].
Defined.

Lemma handle_message_fill_only_override_witness :
  contains pipe "hello" = false /\
  contains pipe "red" = false /\
  sample_handle_message (MessageUpdate sample_user "hello|red") sample_world
  = sample_encode_and_reply (MessageUpdate sample_user "hello|red") sample_user
      "hello" "red" "white" sample_world.
Proof.
  split; [reflexivity|]. split; [reflexivity|].
  apply (handle_message_fill_only_override sample_getrgb sample_optimal_data_chunks
           sample_rs_data_count sample_make_modules sample_png_encode
           sample_user "hello" "red" sample_world); reflexivity.
Defined.

Lemma handle_message_text_too_large_witness :
  nondecreasing (BIT_LIMIT_TABLE sample_rs_data_count ERROR_CORRECT_H) = true /\
  sample_generate_qr sample_long_text "black" "white" = Raise ValueError /\
  sample_handle_message (MessageUpdate sample_user sample_long_text) sample_world
  = (Raise ValueError, sample_world).
Proof.
  assert (Hs : nondecreasing (BIT_LIMIT_TABLE sample_rs_data_count ERROR_CORRECT_H) = true)
    by reflexivity.
  split; [exact Hs|].
  apply (handle_message_text_too_large sample_getrgb sample_optimal_data_chunks
           sample_rs_data_count sample_make_modules sample_png_encode
           sample_user sample_long_text sample_world sample_long_text "black" "white"
           (RGB 0 0 0) (RGB 255 255 255)).
  - exact Hs.
  - reflexivity.
  - reflexivity.
  - reflexivity.
  - intros v Hv Hfit. unfold fits in Hfit.
    pose proof (nondecreasing_nth _ v 40 Hs ltac:(simpl; lia)) as Hle.
    pose proof (needed_bits_mono MODE_SIZE_SMALL (mode_sizes_for_version v)
                  (sample_optimal_data_chunks sample_long_text) ltac:(simpl; lia)) as Hmono.
    assert (Hbig : (nth 40 (BIT_LIMIT_TABLE sample_rs_data_count ERROR_CORRECT_H) 0
                    <? needed_bits MODE_SIZE_SMALL
                         (sample_optimal_data_chunks sample_long_text))%nat = true)
      by (vm_compute; reflexivity).
    apply Nat.ltb_lt in Hbig. lia.
Defined.

Lemma query_history_length_witness :
  db_up sample_world_busy = true /\
  exists rows,
    query_history "42" sample_world_busy = (Ok rows, sample_world_busy) /\
    length rows = 5%nat.
Proof.
  split; [reflexivity|].
  destruct (query_history_length "42" sample_world_busy eq_refl) as (rows & Hq & Hlen).
  exists rows. split; [exact Hq|]. rewrite Hlen. vm_compute. reflexivity.
Defined.

Lemma encoded_text_heads_history_witness :
  db_up sample_world_busy = true /\
  exists rest,
    query_history (str (id sample_user))
      (sample_handle_message (MessageUpdate sample_user "hello|red|white") sample_world_busy).2
    = (Ok (mkQRHistory (str (id sample_user)) "hello" "red" "white"
             (utcnow sample_world_busy) :: rest),
       (sample_handle_message (MessageUpdate sample_user "hello|red|white")
          sample_world_busy).2).
Proof.
  split; [reflexivity|].
  apply (encoded_text_heads_history sample_getrgb sample_optimal_data_chunks
           sample_rs_data_count sample_make_modules sample_png_encode
           sample_user "hello|red|white" sample_world_busy "hello" "red" "white"
           (sample_image "hello" (RGB 255 0 0) (RGB 255 255 255))).
  - reflexivity.
  - reflexivity.
  - reflexivity.
  - intros h Hh _. apply list_elem_of_In in Hh. simpl in Hh.
    repeat (destruct Hh as [<-|Hh]; [simpl; lia|]). destruct Hh.
Defined.

Lemma process_updates_keeps_users_unique_witness :
  NoDup (user_user_id <$> users (db sample_world)) /\
  NoDup (user_user_id <$> users (db (sample_process_updates
           [(on_start, MessageUpdate sample_user "/start");
            (on_message, MessageUpdate sample_user "hello");
            (on_start, MessageUpdate sample_other_user "/start");
            (on_start, MessageUpdate sample_user "/start")] sample_world))).
Proof.
  split; [constructor|].
  apply (process_updates_keeps_users_unique sample_getrgb sample_optimal_data_chunks
           sample_rs_data_count sample_make_modules sample_png_encode sample_strftime
           [(on_start, MessageUpdate sample_user "/start");
            (on_message, MessageUpdate sample_user "hello");
            (on_start, MessageUpdate sample_other_user "/start");
            (on_start, MessageUpdate sample_user "/start")] sample_world).
  constructor.
Defined.

Lemma only_color_buttons_change_colours_witness :
  Forall (fun call : Registered * Update => call.1 <> on_color_button)
    [(on_start, MessageUpdate sample_user "/start");
     (on_message, MessageUpdate sample_user "hello|red|blue");
     (on_button, CallbackUpdate sample_user "show_history")] /\
  all_user_data (sample_process_updates
    [(on_start, MessageUpdate sample_user "/start");
     (on_message, MessageUpdate sample_user "hello|red|blue");
     (on_button, CallbackUpdate sample_user "show_history")] sample_world)
  = all_user_data sample_world.
Proof.
  assert (Hcalls : Forall (fun call : Registered * Update => call.1 <> on_color_button)
    [(on_start, MessageUpdate sample_user "/start");
     (on_message, MessageUpdate sample_user "hello|red|blue");
     (on_button, CallbackUpdate sample_user "show_history")])
    by (repeat constructor; discriminate).
  split; [exact Hcalls|].
  apply (only_color_buttons_change_colours sample_getrgb sample_optimal_data_chunks
           sample_rs_data_count sample_make_modules sample_png_encode sample_strftime
           _ sample_world Hcalls).
Defined.


Lemma color_keyboard_round_trip_witness :
  In ("Красный на белом", ("red", "white")) COLORS /\
  exists button w',
    In [button] get_color_keyboard /\
    button_text button = "Красный на белом" /\
    color_button_handler (CallbackUpdate sample_user (callback_data button)) sample_world
    = (Ok tt, w') /\
    user_data (id sample_user) w' !! "fill_color" = Some "red" /\
    user_data (id sample_user) w' !! "bg_color" = Some "white".
Proof.
  assert (Hin : In ("Красный на белом", ("red", "white")) COLORS)
    by (simpl; right; left; reflexivity).
  split; [exact Hin|].
  apply (color_keyboard_round_trip "Красный на белом" "red" "white"
           sample_user sample_world Hin).
Defined.
